(** * The [useAnalytics] hook of [@prezly/analytics-next]

    A shallow embedding of
    [packages/analytics-nextjs/src/hooks/useAnalytics.ts] and the
    properties of its pending-call queue, its consent gate and its
    deferred identity.

    The hook is a React function component hook.  One call of the hook (one
    render) reads the analytics context, refreshes the reference cell that
    tracks the analytics client, builds the callbacks it hands to the UI and
    registers two effects.  The embedding keeps that shape:

    - the values a render reads from [useAnalyticsContext] are an
      [AnalyticsContext] record;
    - everything a queued closure can reach (the reference cell, the
      client's identity store, [navigator.userAgent], the console and the
      calls the client receives) is an [Env];
    - the hook's own React state ([useQueue], [useLocalStorage]) and the
      browser's [localStorage] are a [Hook] record on top of [Env];
    - a queued closure is a Rocq function on [Env], so what it captures at
      creation time and what it reads at execution time is visible in its
      text, as in the source. *)

From stdpp Require Import base option list strings gmap fin_maps.

Local Open Scope string_scope.
Local Open Scope list_scope.
Local Set Warnings "-register-all".

(** ** Values crossing the API *)

(** [TrackingPolicy] is imported from [../types].

    Modelled from the spec: the declaration of the enumeration is not part
    of the hook's file; the data model gives it as
    "enumeration {DEFAULT, CONSENT_TO_IDENTIFY, ...}".  The members the
    spec leaves out are [OTHER_POLICY], told apart by their tag. *)
Inductive TrackingPolicy :=
| DEFAULT
| CONSENT_TO_IDENTIFY
| OTHER_POLICY (tag : string).

#[global] Instance TrackingPolicy_eq_dec : EqDecision TrackingPolicy.
Proof. solve_decision. Defined.

(** A JavaScript value as far as the hook looks into it: traits and
    properties are objects, an object is a finite map from property names to
    values, and the leaves are strings or members of [TrackingPolicy]. *)
Inductive JsValue :=
| JsString (s : string)
| JsPolicy (p : TrackingPolicy)
| JsObject (fields : gmap string JsValue).

Abbreviation JsObj := (gmap string JsValue).

(** [callback?: () => void].  The hook never looks inside a callback: it
    either calls it or passes it on, so a callback is the name under which
    its invocation shows up in the trace. *)
Record Callback := { callback_name : nat }.

(** [ID] of the analytics client: [string | null | undefined]. *)
Abbreviation ID := (option string).

(** JavaScript truthiness of an [ID], as tested by [if (id)] and
    [storyUuid && ...]: [null], [undefined] and the empty string are falsy. *)
Definition truthy (id : ID) : bool :=
  match id with
  | Some s => negb (bool_decide (s = ""))
  | None => false
  end.

(** The object built by [buildOptions]: [{ context: { library, userAgent? } }]. *)
Record Library := { name : string; version_ : string }.

Record OptionsContext := {
  library : Library;
  userAgent : option string;
}.

Record Options := { context : OptionsContext }.

(** [DeferredIdentity] from [../types]: [{ userId, traits? }]. *)
Record DeferredIdentity := {
  userId : string;
  traits : option JsObj;
}.

(** ** The analytics client

    The client is an external collaborator.  What the hook can do with it is
    call [identify], [alias], [page] and [track] with fully built arguments,
    and go through [user()] to read or erase the user id. *)
Inductive ClientCall :=
| CallIdentify (userId : string) (traits : JsObj) (options : Options)
    (callback : option Callback)
| CallAlias (userId previousId : string) (options : Options)
| CallPage (category name : option string) (properties : JsObj)
    (options : Options) (callback : option Callback)
| CallTrack (event : string) (properties : JsObj) (options : Options)
    (callback : option Callback).

(** A client instance: which capabilities it offers (each may be absent, the
    hook tests for them), on which calls it raises an exception, and what a
    call does to the user id it keeps. *)
Record Client := {
  client_name : nat;
  can_identify : bool;
  can_alias : bool;
  can_page : bool;
  can_track : bool;
  can_user : bool;
  throws : ClientCall -> bool;
  effect_on_id : ClientCall -> ID -> ID;
}.

(** What [console.log] prints in a non-production build.  The text is made
    by [stringify] from [../lib]; the entry keeps the operation and the
    arguments handed to it. *)
Inductive LogEntry :=
| LogIdentify (userId : string) (extendedTraits : JsObj)
| LogAlias (userId previousId : string)
| LogPage (category name : option string) (extendedProperties : JsObj)
| LogTrack (event : string) (extendedProperties : JsObj).

(** Everything that happens outside the hook, in the order it happens. *)
Inductive Event :=
| Received (client : nat) (call : ClientCall)
| UserIdRead (client : nat)
| UserIdErased (client : nat)
| CallbackInvoked (cb : Callback)
| ConsoleLog (entry : LogEntry).

(** ** The environment of a queued closure *)
Record Env := {
  analyticsRef : option Client;   (* [analyticsRef.current] *)
  ajs_user_id : ID;               (* the id behind [analytics.user().id] *)
  navigator_userAgent : string;   (* [navigator.userAgent] *)
  production : bool;              (* [process.env.NODE_ENV === 'production'] *)
  trace : list Event;
}.

Definition set_analyticsRef (c : option Client) (e : Env) : Env :=
  {| analyticsRef := c; ajs_user_id := ajs_user_id e;
     navigator_userAgent := navigator_userAgent e;
     production := production e; trace := trace e |}.

Definition set_ajs_user_id (id : ID) (e : Env) : Env :=
  {| analyticsRef := analyticsRef e; ajs_user_id := id;
     navigator_userAgent := navigator_userAgent e;
     production := production e; trace := trace e |}.

Definition emit (ev : Event) (e : Env) : Env :=
  {| analyticsRef := analyticsRef e; ajs_user_id := ajs_user_id e;
     navigator_userAgent := navigator_userAgent e;
     production := production e; trace := trace e ++ [ev] |}.

(** How a piece of JavaScript ends: it returns a value, or it throws.  Both
    leave a state behind. *)
Inductive Completion (S A : Type) :=
| Normal (a : A) (s : S)
| Thrown (s : S).
Arguments Normal {S A} a s.
Arguments Thrown {S A} s.

Definition state_of {S A} (r : Completion S A) : S :=
  match r with
  | Normal _ s => s
  | Thrown s => s
  end.

Definition returned {S A} (r : Completion S A) : bool :=
  match r with
  | Normal _ _ => true
  | Thrown _ => false
  end.

(** A pending call: [() => { ... }], the [Function] kept by [useQueue]. *)
Definition Closure := Env -> Completion Env unit.

(** Calling a method the client offers. *)
Definition invoke (c : Client) (call : ClientCall) (e : Env)
  : Completion Env unit :=
  let e' := set_ajs_user_id (effect_on_id c call (ajs_user_id e))
              (emit (Received (client_name c) call) e) in
  if throws c call then Thrown e' else Normal tt e'.

(** [analytics.user()], or the fake user API of the hook.  Of the client's
    user API the hook uses [id()], which reports the id the client keeps, and
    [id(null)], which makes the client forget it; the fake one reports
    [null] and keeps nothing. *)
Inductive User :=
| ClientUser (c : Client)
| FakeUser.

(** [user.id()] *)
Definition id_read (u : User) (e : Env) : ID * Env :=
  match u with
  | ClientUser c => (ajs_user_id e, emit (UserIdRead (client_name c)) e)
  | FakeUser => (None, e)
  end.

(** [user.id(null)] *)
Definition id_erase (u : User) (e : Env) : Env :=
  match u with
  | ClientUser c => set_ajs_user_id None (emit (UserIdErased (client_name c)) e)
  | FakeUser => e
  end.

(** ** The state of the hook *)

Definition DEFERRED_IDENTITY_STORAGE_KEY : string :=
  "prezly_ajs_deferred_identity".

Record Hook := {
  env : Env;
  queue : list Closure;                       (* state of [useQueue] *)
  stored : option DeferredIdentity;           (* state of [useLocalStorage] *)
  localStorage : gmap string DeferredIdentity;
}.

Definition set_env (e : Env) (h : Hook) : Hook :=
  {| env := e; queue := queue h; stored := stored h;
     localStorage := localStorage h |}.

Definition on_env (f : Env -> Env) (h : Hook) : Hook := set_env (f (env h)) h.

(** [useQueue]: [add] appends, [remove] drops the first entry, both as
    updates of the current state. *)
Definition addToQueue (f : Closure) (h : Hook) : Hook :=
  {| env := env h; queue := queue h ++ [f]; stored := stored h;
     localStorage := localStorage h |}.

Definition removeFromQueue (h : Hook) : Hook :=
  {| env := env h; queue := tail (queue h); stored := stored h;
     localStorage := localStorage h |}.

(** [useLocalStorage]: [set] writes the item and the state, [remove] deletes
    the item and resets the state. *)
Definition setDeferredIdentity (d : DeferredIdentity) (h : Hook) : Hook :=
  {| env := env h; queue := queue h; stored := Some d;
     localStorage := <[DEFERRED_IDENTITY_STORAGE_KEY := d]> (localStorage h) |}.

Definition removeDeferredIdentity (h : Hook) : Hook :=
  {| env := env h; queue := queue h; stored := None;
     localStorage := delete DEFERRED_IDENTITY_STORAGE_KEY (localStorage h) |}.

(** ** What a render reads from [useAnalyticsContext] *)
Record Newsroom := { newsroom_uuid : string }.
Record Story := { story_uuid : string }.

Record AnalyticsContext := {
  analytics : option Client;
  consent : bool;
  isEnabled : bool;
  newsroom : Newsroom;
  story : option Story;
  trackingPolicy : TrackingPolicy;
}.

(** The record [useAnalytics] returns.  The tracking operations change the
    state of the hook; [newsroom] is only there when tracking is enabled. *)
Module Facade.
Record t := {
  alias : string -> string -> Hook -> Hook;
  identify : string -> option JsObj -> option Callback -> Hook -> Hook;
  newsroom : option Newsroom;
  page : option string -> option string -> option JsObj -> option Callback ->
         Hook -> Hook;
  track : string -> option JsObj -> option Callback -> Hook -> Hook;
  user : User;
}.
End Facade.

(** An effect registered with [useEffect]. *)
Definition Effect := Hook -> Completion Hook unit.

(** What one call of the hook leaves for React: the returned record and the
    two effects, in the order of their [useEffect] calls. *)
Record Rendered := {
  returns : Facade.t;
  drain_effect_of : Effect;
  consent_effect_of : Effect;
}.

(** ** The UI and React around the hook *)

(** A call of the UI to one of the tracking operations. *)
Inductive Op :=
| Identify (userId : string) (traits : option JsObj)
    (callback : option Callback)
| Alias (userId previousId : string)
| Page (category name : option string) (properties : option JsObj)
    (callback : option Callback)
| Track (event : string) (properties : option JsObj)
    (callback : option Callback).

(** What follows a render: the UI calls an operation of the returned
    record, or React runs one of the two effects (the first when
    [firstInQueue] or [analytics] changed, the second when [consent],
    the stored identity or a callback changed). *)
Inductive Action :=
| Issue (op : Op)
| Drain
| React.

(** ** Sample data

    A browser, two clients and a few renders, for the examples that follow
    the properties. *)
Module Sample.

Definition press_room : Newsroom := {| newsroom_uuid := "8f1c-newsroom" |}.

(** A client with every capability, whose calls return; [identify] makes
    the user id its own. *)
Definition segment : Client :=
  {| client_name := 1;
     can_identify := true; can_alias := true; can_page := true;
     can_track := true; can_user := true;
     throws := λ _, false;
     effect_on_id := λ call id,
       match call with
       | CallIdentify userId _ _ _ => Some userId
       | _ => id
       end |}.

(** A client whose tracking calls all throw. *)
Definition brittle : Client :=
  {| client_name := 2;
     can_identify := true; can_alias := true; can_page := true;
     can_track := true; can_user := true;
     throws := λ _, true;
     effect_on_id := λ _ id, id |}.

Definition browser : Env :=
  {| analyticsRef := None; ajs_user_id := None;
     navigator_userAgent := "Mozilla/5.0";
     production := false; trace := [] |}.

(** The hook before its first render. *)
Definition fresh : Hook :=
  {| env := browser; queue := []; stored := None; localStorage := ∅ |}.

(** The hook in a browser whose client knows the user under [id]. *)
Definition known_as (id : ID) : Hook :=
  {| env := set_ajs_user_id id browser; queue := []; stored := None;
     localStorage := ∅ |}.

(** The hook with a stored identity. *)
Definition holding (d : DeferredIdentity) : Hook :=
  {| env := browser; queue := []; stored := Some d;
     localStorage := {[ DEFERRED_IDENTITY_STORAGE_KEY := d ]} |}.

(** A render: the client it knows, the consent, the enabled flag and the
    tracking policy. *)
Definition render (a : option Client) (consented enabled : bool)
    (policy : TrackingPolicy) : AnalyticsContext :=
  {| analytics := a; consent := consented; isEnabled := enabled;
     newsroom := press_room; story := None; trackingPolicy := policy |}.

Definition click : Op := Track "click" None None.
Definition visit : Op := Page None (Some "home") None None.
Definition login : Op :=
  Identify "u1" (Some {[ "plan" := JsString "pro" ]}) None.

End Sample.

Section UseAnalytics.

(** [version] is imported from [../version]. *)
Variable version : string.

(** *** The body of the hook, for one render *)
Section Body.

Variable ctx : AnalyticsContext.

Definition newsroomUuid : string := newsroom_uuid (newsroom ctx).

(** [(story || { uuid: undefined }).uuid] *)
Definition storyUuid : ID := story_uuid <$> story ctx.

(** [buildOptions], called in environment [e].  [consent] is the one of
    the render ([useCallback(..., [consent])]); [navigator.userAgent] is
    read when the function is called. *)
Definition buildOptions (e : Env) : Options :=
  let context0 :=
    {| library := {| name := "@prezly/analytics-next"; version_ := version |};
       userAgent := None |} in
  let context1 :=
    if consent ctx
    then {| library := library context0;
            userAgent := Some (navigator_userAgent e) |}
    else context0 in
  {| context := context1 |}.

Definition prezlyMeta : JsObj :=
  let meta0 : JsObj := {[ "newsroom" := JsString newsroomUuid ]} in
  let meta1 : JsObj :=
    match storyUuid with
    | Some s => if truthy (Some s) then <["story" := JsString s]> meta0 else meta0
    | None => meta0
    end in
  if bool_decide (trackingPolicy ctx ≠ DEFAULT)
  then <["tracking_policy" := JsPolicy (trackingPolicy ctx)]> meta1
  else meta1.

(** [{ ...traits, prezly: { ... } }] *)
Definition injectPrezlyMeta (traits : JsObj) : JsObj :=
  <["prezly" := JsObject prezlyMeta]> traits.

(** [console.log(...)] under [process.env.NODE_ENV !== 'production']. *)
Definition console_log (entry : LogEntry) (h : Hook) : Hook :=
  if production (env h) then h else on_env (emit (ConsoleLog entry)) h.

(** The closures handed to [addToQueue]. *)
Definition identify_call (userId : string) (extendedTraits : JsObj)
    (callback : option Callback) : Closure := fun e =>
  match analyticsRef e with
  | Some current =>
      if can_identify current
      then invoke current
             (CallIdentify userId extendedTraits (buildOptions e) callback) e
      else Normal tt e
  | None => Normal tt e
  end.

Definition alias_call (userId previousId : string) : Closure := fun e =>
  match analyticsRef e with
  | Some current =>
      if can_alias current
      then invoke current (CallAlias userId previousId (buildOptions e)) e
      else Normal tt e
  | None => Normal tt e
  end.

Definition page_call (category name : option string)
    (extendedProperties : JsObj) (callback : option Callback) : Closure :=
  fun e =>
  match analyticsRef e with
  | Some current =>
      if can_page current
      then invoke current
             (CallPage category name extendedProperties (buildOptions e)
                callback) e
      else Normal tt e
  | None => Normal tt e
  end.

Definition track_call (event : string) (extendedProperties : JsObj)
    (callback : option Callback) : Closure := fun e =>
  match analyticsRef e with
  | Some current =>
      if can_track current
      then invoke current
             (CallTrack event extendedProperties (buildOptions e) callback) e
      else Normal tt e
  | None => Normal tt e
  end.

Definition identify (userId : string) (traits : option JsObj)
    (callback : option Callback) (h : Hook) : Hook :=
  let traits := default ∅ traits in
  let extendedTraits := injectPrezlyMeta traits in
  let h := console_log (LogIdentify userId extendedTraits) h in
  if bool_decide (trackingPolicy ctx = CONSENT_TO_IDENTIFY) && negb (consent ctx)
  then
    let h := setDeferredIdentity
               {| userId := userId; traits := Some extendedTraits |} h in
    match callback with
    | Some cb => on_env (emit (CallbackInvoked cb)) h
    | None => h
    end
  else addToQueue (identify_call userId extendedTraits callback) h.

Definition alias (userId previousId : string) (h : Hook) : Hook :=
  let h := console_log (LogAlias userId previousId) h in
  addToQueue (alias_call userId previousId) h.

Definition page (category name : option string) (properties : option JsObj)
    (callback : option Callback) (h : Hook) : Hook :=
  let properties := default ∅ properties in
  let extendedProperties := injectPrezlyMeta properties in
  let h := console_log (LogPage category name extendedProperties) h in
  addToQueue (page_call category name extendedProperties callback) h.

Definition track (event : string) (properties : option JsObj)
    (callback : option Callback) (h : Hook) : Hook :=
  let properties := default ∅ properties in
  let extendedProperties := injectPrezlyMeta properties in
  let h := console_log (LogTrack event extendedProperties) h in
  addToQueue (track_call event extendedProperties callback) h.

Definition user : User :=
  match analytics ctx with
  | Some a => if can_user a then ClientUser a else FakeUser
  | None => FakeUser
  end.

(** The first effect: [firstInQueue] is the head of the queue as the
    render saw it. *)
Definition drain_effect (firstInQueue : option Closure) : Effect := fun h =>
  match analytics ctx, firstInQueue with
  | Some _, Some first =>
      match first (env h) with
      | Normal _ e => Normal tt (removeFromQueue (set_env e h))
      | Thrown e => Thrown (set_env e h)
      end
  | _, _ => Normal tt h
  end.

(** The second effect: [deferredIdentity] is the stored identity as the
    render saw it. *)
Definition consent_effect (deferredIdentity : option DeferredIdentity)
  : Effect := fun h =>
  if consent ctx then
    match deferredIdentity with
    | Some d =>
        let h := identify (userId d) (traits d) None h in
        Normal tt (removeDeferredIdentity h)
    | None => Normal tt h
    end
  else
    let '(id, e) := id_read user (env h) in
    let h := set_env e h in
    let h :=
      match id with
      | Some s =>
          if truthy (Some s)
          then setDeferredIdentity {| userId := s; traits := None |} h
          else h
      | None => h
      end in
    Normal tt (on_env (id_erase user) h).

(** One call of the hook. [useLatest] stores the client of this render in
    the reference cell; the state hooks hand out the current state. *)
Definition useAnalytics (h : Hook) : Rendered * Hook :=
  let h := on_env (set_analyticsRef (analytics ctx)) h in
  let deferredIdentity := stored h in
  let firstInQueue := head (queue h) in
  let returns :=
    if negb (isEnabled ctx) then
      {| Facade.alias := fun _ _ h => h;
         Facade.identify := fun _ _ _ h => h;
         Facade.newsroom := None;
         Facade.page := fun _ _ _ _ h => h;
         Facade.track := fun _ _ _ h => h;
         Facade.user := user |}
    else
      {| Facade.alias := alias;
         Facade.identify := identify;
         Facade.newsroom := Some (newsroom ctx);
         Facade.page := page;
         Facade.track := track;
         Facade.user := user |} in
  ({| returns := returns;
      drain_effect_of := drain_effect firstInQueue;
      consent_effect_of := consent_effect deferredIdentity |}, h).

End Body.

(** *** Calls and effects after a render *)

Definition perform (f : Facade.t) (op : Op) : Hook -> Hook :=
  match op with
  | Identify userId traits callback => Facade.identify f userId traits callback
  | Alias userId previousId => Facade.alias f userId previousId
  | Page category name properties callback =>
      Facade.page f category name properties callback
  | Track event properties callback => Facade.track f event properties callback
  end.

Definition step (ctx : AnalyticsContext) (a : Action) (h : Hook)
  : Completion Hook unit :=
  let '(r, h) := useAnalytics ctx h in
  match a with
  | Issue op => Normal tt (perform (returns r) op h)
  | Drain => drain_effect_of r h
  | React => consent_effect_of r h
  end.

(** A script of renders, each followed by one action.  An exception that
    leaves an effect ends the script. *)
Fixpoint run (script : list (AnalyticsContext * Action)) (h : Hook)
  : Completion Hook unit :=
  match script with
  | [] => Normal tt h
  | (ctx, a) :: script =>
      match step ctx a h with
      | Normal _ h => run script h
      | Thrown h => Thrown h
      end
  end.

(** *** Vocabulary of the statements *)

(** The consent gate of [identify] is closed. *)
Definition gate_closed (ctx : AnalyticsContext) : Prop :=
  trackingPolicy ctx = CONSENT_TO_IDENTIFY ∧ consent ctx = false.

(** The operation is one that gets enqueued under [ctx]. *)
Definition enqueued_under (ctx : AnalyticsContext) (op : Op) : Prop :=
  match op with
  | Identify _ _ _ => ¬ gate_closed ctx
  | _ => True
  end.

(** The client offers the method behind the operation. *)
Definition offers (c : Client) (op : Op) : bool :=
  match op with
  | Identify _ _ _ => can_identify c
  | Alias _ _ => can_alias c
  | Page _ _ _ _ => can_page c
  | Track _ _ _ => can_track c
  end.

(** The call the client is to receive for an operation issued under
    [ctx], when the pending call runs in environment [e]. *)
Definition call_of (ctx : AnalyticsContext) (op : Op) (e : Env) : ClientCall :=
  match op with
  | Identify userId traits callback =>
      CallIdentify userId (injectPrezlyMeta ctx (default ∅ traits))
        (buildOptions ctx e) callback
  | Alias userId previousId =>
      CallAlias userId previousId (buildOptions ctx e)
  | Page category name properties callback =>
      CallPage category name (injectPrezlyMeta ctx (default ∅ properties))
        (buildOptions ctx e) callback
  | Track event properties callback =>
      CallTrack event (injectPrezlyMeta ctx (default ∅ properties))
        (buildOptions ctx e) callback
  end.

(** The closure the operation puts in the queue. *)
Definition closure_of (ctx : AnalyticsContext) (op : Op) : Closure :=
  match op with
  | Identify userId traits callback =>
      identify_call ctx userId (injectPrezlyMeta ctx (default ∅ traits)) callback
  | Alias userId previousId => alias_call ctx userId previousId
  | Page category name properties callback =>
      page_call ctx category name (injectPrezlyMeta ctx (default ∅ properties))
        callback
  | Track event properties callback =>
      track_call ctx event (injectPrezlyMeta ctx (default ∅ properties)) callback
  end.

(** The calls received by clients, the callbacks invoked by the hook and
    the operations that were issued, read off a trace or a script. *)
Definition received (t : list Event) : list (nat * ClientCall) :=
  omap (λ ev, match ev with Received c call => Some (c, call) | _ => None end) t.

Definition invoked (t : list Event) : list Callback :=
  omap (λ ev, match ev with CallbackInvoked cb => Some cb | _ => None end) t.

Definition issued (script : list (AnalyticsContext * Action))
  : list (AnalyticsContext * Op) :=
  omap (λ '(ctx, a), match a with Issue op => Some (ctx, op) | _ => None end)
    script.

(** The events the client [c] is to see for the pending calls [items], run in
    this order in an environment like [e]: one call per item whose method the
    client offers. *)
Definition deliveries (c : Client) (e : Env)
    (items : list (AnalyticsContext * Op)) : list Event :=
  omap (λ '(ctx, op),
          if offers c op
          then Some (Received (client_name c) (call_of ctx op e))
          else None) items.

(** The pending call of an operation issued under a render. *)
Definition pending (item : AnalyticsContext * Op) : Closure :=
  closure_of item.1 item.2.

(** A step of a script that runs while no client is known: the UI issues a
    call that gets enqueued, React notifies the queue, or the consent
    reaction runs without consent. *)
Definition before_client (entry : AnalyticsContext * Action) : Prop :=
  analytics entry.1 = None
  ∧ match entry.2 with
    | Issue op => isEnabled entry.1 = true ∧ enqueued_under entry.1 op
    | Drain => True
    | React => consent entry.1 = false
    end.

(** The options a client call carries. *)
Definition options_of (call : ClientCall) : Options :=
  match call with
  | CallIdentify _ _ options _ => options
  | CallAlias _ _ options => options
  | CallPage _ _ _ options _ => options
  | CallTrack _ _ options _ => options
  end.

(** The same render with another client, or another [isEnabled]. *)
Definition with_analytics (a : option Client) (ctx : AnalyticsContext)
  : AnalyticsContext :=
  {| analytics := a; consent := consent ctx; isEnabled := isEnabled ctx;
     newsroom := newsroom ctx; story := story ctx;
     trackingPolicy := trackingPolicy ctx |}.

Definition with_isEnabled (b : bool) (ctx : AnalyticsContext)
  : AnalyticsContext :=
  {| analytics := analytics ctx; consent := consent ctx; isEnabled := b;
     newsroom := newsroom ctx; story := story ctx;
     trackingPolicy := trackingPolicy ctx |}.

(** One call of [identify], with the render it is issued under. *)
Record IdentifyCall := {
  under : AnalyticsContext;
  with_userId : string;
  with_traits : option JsObj;
  with_callback : option Callback;
}.

Definition identify_with (h : Hook) (a : IdentifyCall) : Hook :=
  identify (under a) (with_userId a) (with_traits a) (with_callback a) h.

(** The identity [identify] defers for a call. *)
Definition deferred_by (a : IdentifyCall) : DeferredIdentity :=
  {| userId := with_userId a;
     traits := Some (injectPrezlyMeta (under a) (default ∅ (with_traits a))) |}.

(** What [console.log] is given for an operation issued under [ctx]. *)
Definition log_of (ctx : AnalyticsContext) (op : Op) : LogEntry :=
  match op with
  | Identify userId traits _ =>
      LogIdentify userId (injectPrezlyMeta ctx (default ∅ traits))
  | Alias userId previousId => LogAlias userId previousId
  | Page category name properties _ =>
      LogPage category name (injectPrezlyMeta ctx (default ∅ properties))
  | Track event properties _ =>
      LogTrack event (injectPrezlyMeta ctx (default ∅ properties))
  end.

(** The console part of a trace. *)
Definition console (t : list Event) : list LogEntry :=
  omap (λ ev, match ev with ConsoleLog entry => Some entry | _ => None end) t.

(** The client call is an [identify]. *)
Definition is_identify (call : ClientCall) : bool :=
  match call with
  | CallIdentify _ _ _ _ => true
  | _ => false
  end.

(** The steps of a script that may run at any time with one client [c]
    around: the UI issues a call that gets enqueued, or React notifies the
    queue, under a render that knows [c] or none. *)
Definition with_client (c : Client) (entry : AnalyticsContext * Action) : Prop :=
  (analytics entry.1 = None ∨ analytics entry.1 = Some c)
  ∧ match entry.2 with
    | Issue op => isEnabled entry.1 = true ∧ enqueued_under entry.1 op
    | Drain => True
    | React => False
    end.

(** The traits or properties a client call carries; [alias] has none. *)
Definition payload (call : ClientCall) : option JsObj :=
  match call with
  | CallIdentify _ traits _ _ => Some traits
  | CallAlias _ _ _ => None
  | CallPage _ _ properties _ _ => Some properties
  | CallTrack _ properties _ _ => Some properties
  end.

(** The call is attributed to the newsroom [uuid]: its payload, if it has
    one, has a [prezly] object whose [newsroom] is [uuid]. *)
Definition attributed_to (uuid : string) (call : ClientCall) : Prop :=
  match payload call with
  | Some o =>
      ∃ meta, o !! "prezly" = Some (JsObject meta)
              ∧ meta !! "newsroom" = Some (JsString uuid)
  | None => True
  end.

(** ** Properties *)

(** *** Options *)

Lemma buildOptions_navigator ctx e e' :
  navigator_userAgent e = navigator_userAgent e' →
  buildOptions ctx e = buildOptions ctx e'.
Proof. unfold buildOptions. by intros ->. Qed.

(** C7. For every invocation of [buildOptions] the returned options carry
    a [userAgent] field if and only if consent is true (and then it is
    [navigator.userAgent]); the library name and version stamp is there
    whatever consent is. *)
Theorem buildOptions_userAgent_iff_consent (ctx : AnalyticsContext) (e : Env) :
  (is_Some (userAgent (context (buildOptions ctx e))) ↔ consent ctx = true)
  ∧ (consent ctx = true →
     userAgent (context (buildOptions ctx e)) = Some (navigator_userAgent e))
  ∧ library (context (buildOptions ctx e))
    = {| name := "@prezly/analytics-next"; version_ := version |}.
Proof.
  unfold buildOptions. destruct (consent ctx); simpl.
  - repeat split; eauto.
  - repeat split; try done; by intros [? ?].
Qed.

(** *** [identify] behind a closed consent gate *)

Lemma received_app t t' : received (t ++ t') = received t ++ received t'.
Proof. apply omap_app. Qed.

Lemma invoked_app t t' : invoked (t ++ t') = invoked t ++ invoked t'.
Proof. apply omap_app. Qed.

(** What [console.log] may change is the console part of the trace. *)
Lemma console_log_frame entry h :
  queue (console_log entry h) = queue h
  ∧ stored (console_log entry h) = stored h
  ∧ localStorage (console_log entry h) = localStorage h
  ∧ received (trace (env (console_log entry h))) = received (trace (env h))
  ∧ invoked (trace (env (console_log entry h))) = invoked (trace (env h))
  ∧ analyticsRef (env (console_log entry h)) = analyticsRef (env h)
  ∧ ajs_user_id (env (console_log entry h)) = ajs_user_id (env h)
  ∧ navigator_userAgent (env (console_log entry h))
    = navigator_userAgent (env h).
Proof.
  unfold console_log. destruct (production (env h)); simpl; [done|].
  rewrite received_app, invoked_app. simpl. by rewrite !app_nil_r.
Qed.

(** The branch of [identify] taken when the gate is closed. *)
Lemma identify_gate_closed ctx userId traits callback h :
  gate_closed ctx →
  identify ctx userId traits callback h
  = let extendedTraits := injectPrezlyMeta ctx (default ∅ traits) in
    let h := setDeferredIdentity
               {| userId := userId; traits := Some extendedTraits |}
               (console_log (LogIdentify userId extendedTraits) h) in
    match callback with
    | Some cb => on_env (emit (CallbackInvoked cb)) h
    | None => h
    end.
Proof.
  intros [Hpolicy Hconsent]. unfold identify.
  by rewrite Hpolicy, Hconsent, bool_decide_eq_true_2.
Qed.

Lemma identify_with_gate_closed h a :
  gate_closed (under a) →
  stored (identify_with h a) = Some (deferred_by a)
  ∧ localStorage (identify_with h a)
    = <[DEFERRED_IDENTITY_STORAGE_KEY := deferred_by a]> (localStorage h)
  ∧ queue (identify_with h a) = queue h
  ∧ received (trace (env (identify_with h a))) = received (trace (env h))
  ∧ invoked (trace (env (identify_with h a)))
    = invoked (trace (env h)) ++ option_list (with_callback a).
Proof.
  intros Hgate. unfold identify_with. rewrite identify_gate_closed by done.
  destruct (console_log_frame
              (LogIdentify (with_userId a)
                 (injectPrezlyMeta (under a) (default ∅ (with_traits a)))) h)
    as (Hq & _ & Hl & Hr & Hi & _).
  destruct (with_callback a) as [cb|]; simpl;
    rewrite ?received_app, ?invoked_app, Hq, Hl, Hr, Hi; simpl;
    by rewrite ?app_nil_r.
Qed.

(** A run of such calls writes one key of [localStorage] and nothing
    else of the state but the trace. *)
Lemma identify_with_gate_closed_fold calls : ∀ h,
  Forall (λ a, gate_closed (under a)) calls →
  let h' := foldl identify_with h calls in
  (∀ d, <[DEFERRED_IDENTITY_STORAGE_KEY := d]> (localStorage h')
        = <[DEFERRED_IDENTITY_STORAGE_KEY := d]> (localStorage h))
  ∧ queue h' = queue h
  ∧ received (trace (env h')) = received (trace (env h))
  ∧ invoked (trace (env h'))
    = invoked (trace (env h)) ++ omap with_callback calls.
Proof.
  induction calls as [|a calls IH]; intros h Hgate; simpl.
  - by rewrite app_nil_r.
  - apply Forall_cons in Hgate as [Ha Hgate].
    destruct (identify_with_gate_closed h a Ha) as (_ & Hl & Hq & Hr & Hi).
    destruct (IH (identify_with h a) Hgate) as (IHl & IHq & IHr & IHi).
    repeat split.
    + intros d. by rewrite IHl, Hl, insert_insert_eq.
    + congruence.
    + congruence.
    + rewrite IHi, Hi, <-app_assoc. f_equal.
      by destruct (with_callback a).
Qed.

(** C1. Every call to [identify] made while the tracking policy is
    [CONSENT_TO_IDENTIFY] and consent is false sets the deferred identity
    to [{userId, traits: enriched}], invokes the callback (if there is one)
    on the spot, adds nothing to the pending-call queue and sends nothing
    to the client.  After a sequence of such calls, [calls] followed by
    [a], the deferred identity is the one of the last call [a], and the
    storage key holds that identity only: whatever the earlier calls
    stored has been overwritten. *)
Theorem identify_without_consent_defers (h : Hook)
    (calls : list IdentifyCall) (a : IdentifyCall)
    (Hgate : Forall (λ a, gate_closed (under a)) (calls ++ [a])) :
  let h' := foldl identify_with h (calls ++ [a]) in
  stored h' = Some (deferred_by a)
  ∧ localStorage h'
    = <[DEFERRED_IDENTITY_STORAGE_KEY := deferred_by a]> (localStorage h)
  ∧ localStorage h' !! DEFERRED_IDENTITY_STORAGE_KEY = Some (deferred_by a)
  ∧ queue h' = queue h
  ∧ received (trace (env h')) = received (trace (env h))
  ∧ invoked (trace (env h'))
    = invoked (trace (env h)) ++ omap with_callback (calls ++ [a]).
Proof.
  apply Forall_app in Hgate as [Hcalls Ha].
  rewrite Forall_singleton in Ha.
  simpl. rewrite foldl_app. simpl.
  destruct (identify_with_gate_closed_fold calls h Hcalls)
    as (Hl & Hq & Hr & Hi).
  destruct (identify_with_gate_closed (foldl identify_with h calls) a Ha)
    as (Hs' & Hl' & Hq' & Hr' & Hi').
  assert (localStorage (identify_with (foldl identify_with h calls) a)
          = <[DEFERRED_IDENTITY_STORAGE_KEY := deferred_by a]> (localStorage h))
    as Hstore by (by rewrite Hl', Hl).
  split_and!.
  - done.
  - done.
  - by rewrite Hstore, lookup_insert_eq.
  - congruence.
  - congruence.
  - rewrite Hi', Hi, omap_app, <-app_assoc. f_equal; simpl;
      by destruct (with_callback a).
Qed.

(** *** Pending calls *)

Lemma call_of_navigator ctx op e e' :
  navigator_userAgent e = navigator_userAgent e' →
  call_of ctx op e = call_of ctx op e'.
Proof.
  intros H. destruct op; simpl; by rewrite (buildOptions_navigator ctx e e' H).
Qed.

Lemma deliveries_navigator c e e' items :
  navigator_userAgent e = navigator_userAgent e' →
  deliveries c e items = deliveries c e' items.
Proof.
  intros H. unfold deliveries.
  induction items as [|[ctx op] items IH]; csimpl; [done|].
  by rewrite (call_of_navigator ctx op e e' H), IH.
Qed.

(** A pending call looks up the client when it runs. *)
Lemma closure_of_present ctx op e c :
  analyticsRef e = Some c →
  closure_of ctx op e
  = if offers c op then invoke c (call_of ctx op e) e else Normal tt e.
Proof.
  intros H. destruct op; simpl;
    unfold identify_call, alias_call, page_call, track_call; by rewrite H.
Qed.

Lemma closure_of_absent ctx op e :
  analyticsRef e = None → closure_of ctx op e = Normal tt e.
Proof.
  intros H. destruct op; simpl;
    unfold identify_call, alias_call, page_call, track_call; by rewrite H.
Qed.

(** What an operation of the enabled façade does when it is not stopped by
    the consent gate: it logs to the console and appends its closure. *)
Lemma perform_enqueues ctx op h h0 :
  isEnabled ctx = true → enqueued_under ctx op →
  perform (returns (useAnalytics ctx h0).1) op h
  = addToQueue (closure_of ctx op)
      (console_log
         match op with
         | Identify userId traits _ =>
             LogIdentify userId (injectPrezlyMeta ctx (default ∅ traits))
         | Alias userId previousId => LogAlias userId previousId
         | Page category name properties _ =>
             LogPage category name (injectPrezlyMeta ctx (default ∅ properties))
         | Track event properties _ =>
             LogTrack event (injectPrezlyMeta ctx (default ∅ properties))
         end h).
Proof.
  intros Henabled Hopen. unfold useAnalytics. rewrite Henabled. simpl.
  destruct op; simpl; try done.
  unfold identify.
  destruct (bool_decide (trackingPolicy ctx = CONSENT_TO_IDENTIFY)) eqn:Hp;
    [|done].
  destruct (consent ctx) eqn:Hc; [done|].
  apply bool_decide_eq_true_1 in Hp. by destruct Hopen.
Qed.

Lemma step_issue_enqueues ctx op h :
  isEnabled ctx = true → enqueued_under ctx op →
  ∃ h', step ctx (Issue op) h = Normal tt h'
    ∧ queue h' = queue h ++ [closure_of ctx op]
    ∧ stored h' = stored h
    ∧ localStorage h' = localStorage h
    ∧ received (trace (env h')) = received (trace (env h))
    ∧ invoked (trace (env h')) = invoked (trace (env h))
    ∧ analyticsRef (env h') = analytics ctx
    ∧ navigator_userAgent (env h') = navigator_userAgent (env h).
Proof.
  intros Henabled Hopen. unfold step.
  destruct (useAnalytics ctx h) as [r h0] eqn:Hr.
  assert (r = (useAnalytics ctx h).1) as -> by (by rewrite Hr).
  assert (h0 = on_env (set_analyticsRef (analytics ctx)) h) as ->
    by (by inversion Hr).
  rewrite perform_enqueues by done.
  eexists. split; [done|].
  match goal with |- context [console_log ?entry ?h] =>
    destruct (console_log_frame entry h) as (Hq & Hs & Hl & Hrc & Hi & Ha & _ & Hn)
  end.
  simpl. by rewrite Hq, Hs, Hl, Hrc, Hi, Ha, Hn.
Qed.

(** The drain effect on a queue with a known head. *)
Lemma step_drain_cons ctx c first rest h :
  analytics ctx = Some c → queue h = first :: rest →
  step ctx Drain h
  = let h0 := on_env (set_analyticsRef (Some c)) h in
    match first (env h0) with
    | Normal _ e => Normal tt (removeFromQueue (set_env e h0))
    | Thrown e => Thrown (set_env e h0)
    end.
Proof.
  intros Hc Hq. unfold step, useAnalytics. simpl.
  unfold drain_effect. by rewrite Hc, Hq.
Qed.

Lemma step_drain_idle ctx h :
  analytics ctx = None ∨ queue h = [] →
  step ctx Drain h = Normal tt (on_env (set_analyticsRef (analytics ctx)) h).
Proof.
  intros H. unfold step, useAnalytics. simpl. unfold drain_effect.
  destruct H as [-> | ->]; [done|]. simpl. by destruct (analytics ctx).
Qed.

Lemma run_cons ctx a script h :
  run ((ctx, a) :: script) h
  = match step ctx a h with
    | Normal _ h' => run script h'
    | Thrown h' => Thrown h'
    end.
Proof. done. Qed.

Lemma run_app script script' h :
  run (script ++ script') h
  = match run script h with
    | Normal _ h' => run script' h'
    | Thrown h' => Thrown h'
    end.
Proof.
  revert h. induction script as [|[ctx a] script IH]; intros h; simpl; [done|].
  destruct (step ctx a h); [apply IH | done].
Qed.

Lemma issued_cons entry script :
  issued (entry :: script) = issued [entry] ++ issued script.
Proof. unfold issued. apply (omap_app _ [entry]). Qed.

(** While no client is known, a step only appends to the queue: a call of
    the UI appends its closure, the two effects do nothing. *)
Lemma step_before_client entry h :
  before_client entry →
  ∃ h', step entry.1 entry.2 h = Normal tt h'
    ∧ queue h' = queue h ++ (pending <$> issued [entry])
    ∧ received (trace (env h')) = received (trace (env h))
    ∧ navigator_userAgent (env h') = navigator_userAgent (env h).
Proof.
  destruct entry as [ctx [op| |]]; unfold before_client; simpl;
    intros [Hnone Ha].
  - destruct Ha as [Henabled Hopen].
    destruct (step_issue_enqueues ctx op h Henabled Hopen)
      as (h' & Hstep & Hq & _ & _ & Hr & _ & _ & Hn).
    exists h'. by rewrite Hstep, Hq, Hr, Hn.
  - rewrite step_drain_idle by (by left). eexists. split; [done|].
    simpl. by rewrite app_nil_r.
  - unfold step, useAnalytics, consent_effect, user. simpl.
    rewrite Ha, Hnone. simpl. eexists. split; [done|].
    simpl. by rewrite app_nil_r.
Qed.

Lemma run_before_client script : ∀ h,
  Forall before_client script →
  ∃ h', run script h = Normal tt h'
    ∧ queue h' = queue h ++ (pending <$> issued script)
    ∧ received (trace (env h')) = received (trace (env h))
    ∧ navigator_userAgent (env h') = navigator_userAgent (env h).
Proof.
  induction script as [|entry script IH]; intros h Hall.
  - exists h. simpl. by rewrite app_nil_r.
  - apply Forall_cons in Hall as [Hentry Hall].
    destruct (step_before_client entry h Hentry) as (h1 & Hstep & Hq1 & Hr1 & Hn1).
    destruct (IH h1 Hall) as (h' & Hrun & Hq & Hr & Hn).
    exists h'. split.
    + destruct entry as [ctx a]. simpl in Hstep. simpl. by rewrite Hstep.
    + rewrite (issued_cons entry script), fmap_app.
      by rewrite Hq, Hq1, Hr, Hr1, Hn, Hn1, <-app_assoc.
Qed.

(** With a client that returns from every call, [k] notifications run the
    first [k] pending calls, oldest first, and drop them from the queue. *)
Lemma run_drain ctx c (k : nat) : ∀ items h,
  analytics ctx = Some c →
  (∀ call, throws c call = false) →
  queue h = pending <$> items →
  ∃ h', run (replicate k (ctx, Drain)) h = Normal tt h'
    ∧ queue h' = pending <$> drop k items
    ∧ trace (env h') = trace (env h) ++ deliveries c (env h) (take k items)
    ∧ navigator_userAgent (env h') = navigator_userAgent (env h).
Proof.
  induction k as [|k IH]; intros items h Hc Hret Hq.
  - exists h. simpl. rewrite drop_0. by rewrite app_nil_r.
  - destruct items as [|[ictx op] items].
    + simpl. rewrite step_drain_idle by (by right).
      destruct (IH [] (on_env (set_analyticsRef (analytics ctx)) h) Hc Hret Hq)
        as (h' & Hrun & Hq' & Ht & Hn).
      exists h'. rewrite drop_nil in *. rewrite take_nil in *.
      by rewrite Hrun.
    + simpl in Hq. simpl run. rewrite (step_drain_cons ctx c _ _ h Hc Hq).
      cbv zeta. unfold pending at 1. simpl.
      rewrite (closure_of_present ictx op _ c) by done.
      set (e0 := set_analyticsRef (Some c) (env h)).
      assert (∃ e1, (if offers c op then invoke c (call_of ictx op e0) e0
                     else Normal tt e0) = Normal tt e1
                ∧ trace e1 = trace (env h) ++ deliveries c (env h) [(ictx, op)]
                ∧ navigator_userAgent e1 = navigator_userAgent (env h))
        as (e1 & -> & Ht1 & Hn1).
      { unfold deliveries. csimpl. destruct (offers c op).
        - unfold invoke. rewrite Hret. eexists. split; [done|]. simpl.
          split; [|done]. by rewrite (call_of_navigator ictx op e0 (env h)).
        - exists e0. simpl. by rewrite app_nil_r. }
      destruct (IH items
                  (removeFromQueue
                     (set_env e1 (on_env (set_analyticsRef (Some c)) h)))
                  Hc Hret) as (h' & Hrun & Hq' & Ht & Hn).
      { simpl. by rewrite Hq. }
      exists h'. rewrite Hrun. split; [done|]. split; [done|].
      simpl in Ht, Hn. rewrite Ht, Ht1, Hn, Hn1, <-app_assoc.
      split; [|done]. f_equal.
      rewrite (deliveries_navigator c e1 (env h)) by done.
      unfold deliveries. csimpl. by destruct (offers c op).
Qed.

(** A call issued into an empty queue and drained under a render that knows
    a client offering the method: the client receives the call, built from
    the render the call was issued under. *)
Lemma run_issue_drain ctx ctx' op h c :
  isEnabled ctx = true → enqueued_under ctx op → queue h = [] →
  analytics ctx' = Some c → offers c op = true →
  received (trace (env (state_of (run [(ctx, Issue op); (ctx', Drain)] h))))
  = received (trace (env h)) ++ [(client_name c, call_of ctx op (env h))].
Proof.
  intros Henabled Hopen Hempty Hc Hoffers. rewrite run_cons.
  destruct (step_issue_enqueues ctx op h Henabled Hopen)
    as (h1 & -> & Hq & _ & _ & Hr & _ & _ & Hn).
  rewrite Hempty in Hq. simpl in Hq.
  rewrite run_cons, (step_drain_cons ctx' c _ _ h1 Hc Hq). cbv zeta.
  rewrite (closure_of_present ctx op _ c) by done.
  rewrite Hoffers. unfold invoke.
  rewrite (call_of_navigator ctx op _ (env h)) by (simpl; done).
  destruct (throws c _); simpl;
    rewrite received_app, Hr; done.
Qed.

(** C2. The closure that [identify], [alias], [page] or [track] puts in the
    queue is [closure_of ctx op]: it is appended to the queue, and nothing of
    the client known at that moment is in it (it is the same closure whatever
    the render's client is).  The client it calls is the one found in the
    reference cell of the environment it runs in: with a client there that
    offers the method it invokes that client, with none it returns without
    doing anything.  So a call enqueued while no client is known, and
    drained after a client has arrived, is received by that client. *)
Theorem pending_call_reads_client_when_it_runs
    (ctx : AnalyticsContext) (op : Op) (h : Hook)
    (Henabled : isEnabled ctx = true) (Hopen : enqueued_under ctx op) :
  (∃ h', step ctx (Issue op) h = Normal tt h'
         ∧ queue h' = queue h ++ [closure_of ctx op])
  ∧ (∀ a, closure_of (with_analytics a ctx) op = closure_of ctx op)
  ∧ (∀ e c, analyticsRef e = Some c → offers c op = true →
       closure_of ctx op e = invoke c (call_of ctx op e) e)
  ∧ (∀ e, analyticsRef e = None → closure_of ctx op e = Normal tt e)
  ∧ (∀ ctx' c,
       analytics ctx = None → queue h = [] →
       analytics ctx' = Some c → offers c op = true →
       received (trace (env (state_of (run [(ctx, Issue op); (ctx', Drain)] h))))
       = received (trace (env h)) ++ [(client_name c, call_of ctx op (env h))]).
Proof.
  split_and!.
  - destruct (step_issue_enqueues ctx op h Henabled Hopen) as (h' & ? & ? & _).
    by exists h'.
  - intros a. by destruct op.
  - intros e c He Hoffers. by rewrite (closure_of_present ctx op e c He), Hoffers.
  - apply closure_of_absent.
  - intros ctx' c _ Hempty Hc Hoffers. by apply run_issue_drain.
Qed.

(** C3, as the code has it. Calls issued while no client is known (with
    notifications and consent reactions in between, [identify] only with
    the consent gate open) are all enqueued, in the order they were issued, and none reaches a
    client.  Once a render knows a client whose methods return, [k]
    notifications run the first [k] of them, oldest first, one per
    notification, and leave the others queued: the client receives one call
    for each of these whose method it offers, in that order.  After as many
    notifications as there are calls the queue is empty, and further
    notifications deliver nothing more. *)
Theorem queued_calls_fire_once_in_order
    (script : list (AnalyticsContext * Action)) (h : Hook)
    (ctx : AnalyticsContext) (c : Client) (k : nat)
    (Hempty : queue h = [])
    (Hbefore : Forall before_client script)
    (Hclient : analytics ctx = Some c)
    (Hreturns : ∀ call, throws c call = false) :
  ∃ h1 hk,
    run script h = Normal tt h1
    ∧ queue h1 = pending <$> issued script
    ∧ received (trace (env h1)) = received (trace (env h))
    ∧ run (replicate k (ctx, Drain)) h1 = Normal tt hk
    ∧ queue hk = pending <$> drop k (issued script)
    ∧ trace (env hk)
      = trace (env h1) ++ deliveries c (env h) (take k (issued script)).
Proof.
  destruct (run_before_client script h Hbefore) as (h1 & Hrun & Hq & Hr & Hn).
  rewrite Hempty in Hq. simpl in Hq.
  destruct (run_drain ctx c k (issued script) h1 Hclient Hreturns Hq)
    as (hk & Hrunk & Hqk & Htk & _).
  exists h1, hk. split_and!; try done.
  by rewrite Htk, (deliveries_navigator c (env h1) (env h)).
Qed.

(** C4, as the code has it. In a drain step the oldest entry is invoked
    first and removed afterwards.  When the invocation returns, the entry is
    removed and the rest of the queue stays.  When the invocation throws,
    the removal is not reached: the exception leaves the effect and the
    entry is still the head of the queue. *)
Theorem drain_removes_oldest_entry_after_it_returns
    (ctx : AnalyticsContext) (c : Client) (first : Closure)
    (rest : list Closure) (h : Hook)
    (Hclient : analytics ctx = Some c) (Hqueue : queue h = first :: rest) :
  let e0 := set_analyticsRef (Some c) (env h) in
  (∀ e, first e0 = Normal tt e →
     ∃ h', step ctx Drain h = Normal tt h'
           ∧ env h' = e ∧ queue h' = rest
           ∧ stored h' = stored h ∧ localStorage h' = localStorage h)
  ∧ (∀ e, first e0 = Thrown e →
     ∃ h', step ctx Drain h = Thrown h'
           ∧ env h' = e ∧ queue h' = first :: rest
           ∧ stored h' = stored h ∧ localStorage h' = localStorage h).
Proof.
  intros e0. rewrite (step_drain_cons ctx c first rest h Hclient Hqueue).
  cbv zeta. change (env (on_env (set_analyticsRef (Some c)) h)) with e0.
  split; intros e ->; eexists; (split; [done|]); simpl; by rewrite ?Hqueue.
Qed.

(** C9. The options a queued call hands to the client are made by the
    [buildOptions] of the render the call was issued under: whether they
    carry [userAgent] follows the consent of that render.  This holds in
    whatever environment the closure runs, and so for a call that is drained
    under a later render [ctx'], whatever the consent of that render. *)
Theorem options_follow_consent_at_enqueue
    (ctx ctx' : AnalyticsContext) (op : Op) (h : Hook) (c : Client)
    (Henabled : isEnabled ctx = true) (Hopen : enqueued_under ctx op)
    (Hempty : queue h = [])
    (Hclient : analytics ctx' = Some c) (Hoffers : offers c op = true) :
  (∀ e current, analyticsRef e = Some current → offers current op = true →
     ∃ call,
       closure_of ctx op e = invoke current call e
       ∧ options_of call = buildOptions ctx e
       ∧ (is_Some (userAgent (context (options_of call))) ↔ consent ctx = true))
  ∧ ∃ call,
      received (trace (env (state_of (run [(ctx, Issue op); (ctx', Drain)] h))))
      = received (trace (env h)) ++ [(client_name c, call)]
      ∧ options_of call = buildOptions ctx (env h)
      ∧ (is_Some (userAgent (context (options_of call))) ↔ consent ctx = true).
Proof.
  assert (∀ e, options_of (call_of ctx op e) = buildOptions ctx e) as Hoptions
    by (intros e; by destruct op).
  assert (∀ e, is_Some (userAgent (context (buildOptions ctx e)))
               ↔ consent ctx = true) as Hagent.
  { intros e. unfold buildOptions.
    destruct (consent ctx); simpl; split; eauto; try done; by intros [? ?]. }
  split.
  - intros e current He Hcurrent. exists (call_of ctx op e).
    rewrite (closure_of_present ctx op e current He), Hcurrent, Hoptions.
    by split_and!.
  - exists (call_of ctx op (env h)). rewrite Hoptions.
    split_and!; [by apply run_issue_drain | done | done].
Qed.

(** *** The consent reaction *)

(** The branch of [identify] taken when the gate is open. *)
Lemma identify_gate_open ctx userId traits callback h :
  ¬ gate_closed ctx →
  identify ctx userId traits callback h
  = let extendedTraits := injectPrezlyMeta ctx (default ∅ traits) in
    addToQueue (identify_call ctx userId extendedTraits callback)
      (console_log (LogIdentify userId extendedTraits) h).
Proof.
  intros Hopen. unfold identify.
  destruct (bool_decide (trackingPolicy ctx = CONSENT_TO_IDENTIFY)) eqn:Hp;
    [|done].
  destruct (consent ctx) eqn:Hc; [done|].
  apply bool_decide_eq_true_1 in Hp. by destruct Hopen.
Qed.

(** The reaction with consent and a stored identity. *)
Lemma react_with_consent ctx h d :
  consent ctx = true → stored h = Some d →
  step ctx React h
  = Normal tt
      (removeDeferredIdentity
         (identify ctx (userId d) (traits d) None (useAnalytics ctx h).2)).
Proof.
  intros Hc Hs. unfold step, useAnalytics. simpl.
  unfold consent_effect. by rewrite Hc, Hs.
Qed.

(** The reaction with consent and nothing stored. *)
Lemma react_with_consent_idle ctx h :
  consent ctx = true → stored h = None →
  step ctx React h = Normal tt (useAnalytics ctx h).2.
Proof.
  intros Hc Hs. unfold step, useAnalytics. simpl.
  unfold consent_effect. by rewrite Hc, Hs.
Qed.

(** The reaction without consent, through the user API of a client. *)
Lemma react_without_consent_client ctx c h :
  consent ctx = false → user ctx = ClientUser c →
  ∃ h', step ctx React h = Normal tt h'
    ∧ trace (env h')
      = trace (env h) ++ [UserIdRead (client_name c); UserIdErased (client_name c)]
    ∧ ajs_user_id (env h') = None
    ∧ queue h' = queue h
    ∧ (∀ s, ajs_user_id (env h) = Some s → s ≠ "" →
         stored h' = Some {| userId := s; traits := None |}
         ∧ localStorage h'
           = <[DEFERRED_IDENTITY_STORAGE_KEY := {| userId := s; traits := None |}]>
               (localStorage h))
    ∧ (ajs_user_id (env h) = None ∨ ajs_user_id (env h) = Some "" →
         stored h' = stored h ∧ localStorage h' = localStorage h).
Proof.
  intros Hc Hu. unfold step, useAnalytics. simpl.
  unfold consent_effect. rewrite Hc, Hu. simpl.
  destruct (ajs_user_id (env h)) as [s|] eqn:Hid.
  - simpl. destruct (bool_decide (s = "")) eqn:Hs; simpl.
    + apply bool_decide_eq_true_1 in Hs as ->.
      eexists. split; [done|]. simpl. rewrite <-app_assoc.
      split_and!; try done. by intros s [= <-] ?.
    + apply bool_decide_eq_false_1 in Hs.
      eexists. split; [done|]. simpl. rewrite <-app_assoc.
      split_and!; try done.
      * by intros s' [= <-] _.
      * intros [?|[= ->]]; done.
  - eexists. split; [done|]. simpl. rewrite <-app_assoc.
    split_and!; try done.
Qed.

(** The reaction without consent, through the fake user API. *)
Lemma react_without_consent_fake ctx h :
  consent ctx = false → user ctx = FakeUser →
  ∃ h', step ctx React h = Normal tt h'
    ∧ env h' = set_analyticsRef (analytics ctx) (env h)
    ∧ queue h' = queue h
    ∧ stored h' = stored h
    ∧ localStorage h' = localStorage h.
Proof.
  intros Hc Hu. unfold step, useAnalytics. simpl.
  unfold consent_effect. rewrite Hc, Hu. simpl. by eexists.
Qed.

(** C5. When the reaction runs with consent and a deferred identity [d] is
    stored, [identify] is called with the stored [userId] and [traits], and
    the stored identity is removed after it: the call passes the consent
    gate, so one pending [identify] for them joins the queue, and both the
    state and the storage key are empty afterwards.  It happens once: the
    reaction to the emptied slot does nothing. *)
Theorem consent_replays_deferred_identity
    (ctx : AnalyticsContext) (h : Hook) (d : DeferredIdentity)
    (Hconsent : consent ctx = true) (Hstored : stored h = Some d) :
  ∃ h',
    step ctx React h = Normal tt h'
    ∧ h' = removeDeferredIdentity
             (identify ctx (userId d) (traits d) None (useAnalytics ctx h).2)
    ∧ queue h'
      = queue h
        ++ [identify_call ctx (userId d)
              (injectPrezlyMeta ctx (default ∅ (traits d))) None]
    ∧ stored h' = None
    ∧ localStorage h' = delete DEFERRED_IDENTITY_STORAGE_KEY (localStorage h)
    ∧ localStorage h' !! DEFERRED_IDENTITY_STORAGE_KEY = None
    ∧ received (trace (env h')) = received (trace (env h))
    ∧ step ctx React h' = Normal tt (useAnalytics ctx h').2
    ∧ queue (useAnalytics ctx h').2 = queue h'.
Proof.
  eexists. split; [by apply react_with_consent|]. split; [done|].
  assert (¬ gate_closed ctx) as Hopen by (intros [_ ?]; congruence).
  rewrite (identify_gate_open ctx _ _ _ _ Hopen). cbv zeta.
  match goal with |- context [console_log ?entry ?h] =>
    destruct (console_log_frame entry h) as (Hq & _ & Hl & Hr & _)
  end.
  split_and!.
  - simpl in *. by rewrite Hq.
  - done.
  - simpl in *. by rewrite Hl.
  - simpl. by rewrite lookup_delete_eq.
  - simpl in *. by rewrite Hr.
  - by apply react_with_consent_idle.
  - done.
Qed.

(** C6, as the code has it. When the reaction runs without consent, the
    user id is read through [user().id()].  An id that passes [if (id)],
    that is a string that is not empty, is stored as deferred identity
    without traits, in the state and under the storage key; [null] and the
    empty string are not stored.  Then [user().id(null)] is called, whatever
    the id was, and [user().id()] is [null] afterwards.  With a client that
    offers [user] the two calls reach the client, in this order, and its id
    is erased; the fake user API reaches no one. *)
Theorem consent_withdrawn_defers_id_and_erases
    (ctx : AnalyticsContext) (h : Hook) (Hconsent : consent ctx = false) :
  let id := (id_read (user ctx) (env h)).1 in
  ∃ h',
    step ctx React h = Normal tt h'
    ∧ (∀ s, id = Some s → s ≠ "" →
         stored h' = Some {| userId := s; traits := None |}
         ∧ localStorage h'
           = <[DEFERRED_IDENTITY_STORAGE_KEY := {| userId := s; traits := None |}]>
               (localStorage h))
    ∧ (id = None ∨ id = Some "" →
         stored h' = stored h ∧ localStorage h' = localStorage h)
    ∧ (id_read (user ctx) (env h')).1 = None
    ∧ queue h' = queue h
    ∧ (∀ c, user ctx = ClientUser c →
         trace (env h')
         = trace (env h)
           ++ [UserIdRead (client_name c); UserIdErased (client_name c)]
         ∧ ajs_user_id (env h') = None)
    ∧ (user ctx = FakeUser → trace (env h') = trace (env h)).
Proof.
  destruct (user ctx) as [c|] eqn:Hu; simpl.
  - destruct (react_without_consent_client ctx c h Hconsent Hu)
      as (h' & Hstep & Ht & Hid & Hq & Hset & Hkeep).
    exists h'. split_and!; try done. by intros c' [= <-].
  - destruct (react_without_consent_fake ctx h Hconsent Hu)
      as (h' & Hstep & He & Hq & Hs & Hl).
    exists h'. split_and!; try done. by rewrite He.
Qed.

(** C10, as the code has it. The two effects do not look at [isEnabled]: a
    disabled render runs them as an enabled one does.  Without consent and
    with a client that offers [user], the disabled hook still reads the id,
    stores an id that passes [if (id)] (a string that is not empty) as
    deferred identity, and calls [user().id(null)] whatever the id was, also
    when it was [null] already.  With a client known, it still invokes the
    oldest pending call, and removes it when the call returns. *)
Theorem effects_run_when_disabled
    (ctx : AnalyticsContext) (h : Hook) (Hdisabled : isEnabled ctx = false) :
  step ctx Drain h = step (with_isEnabled true ctx) Drain h
  ∧ step ctx React h = step (with_isEnabled true ctx) React h
  ∧ (∀ c, consent ctx = false → analytics ctx = Some c → can_user c = true →
       ∃ h', step ctx React h = Normal tt h'
         ∧ trace (env h')
           = trace (env h)
             ++ [UserIdRead (client_name c); UserIdErased (client_name c)]
         ∧ ajs_user_id (env h') = None
         ∧ (∀ s, ajs_user_id (env h) = Some s → s ≠ "" →
              stored h' = Some {| userId := s; traits := None |}
              ∧ localStorage h' !! DEFERRED_IDENTITY_STORAGE_KEY
                = Some {| userId := s; traits := None |})
         ∧ (ajs_user_id (env h) = None ∨ ajs_user_id (env h) = Some "" →
              stored h' = stored h ∧ localStorage h' = localStorage h))
  ∧ (∀ c first rest, analytics ctx = Some c → queue h = first :: rest →
       env (state_of (step ctx Drain h))
       = state_of (first (set_analyticsRef (Some c) (env h)))
       ∧ (returned (step ctx Drain h) = true →
          queue (state_of (step ctx Drain h)) = rest)).
Proof.
  split_and!.
  - done.
  - done.
  - intros c Hconsent Hc Huser.
    assert (user ctx = ClientUser c) as Hu by (unfold user; by rewrite Hc, Huser).
    destruct (react_without_consent_client ctx c h Hconsent Hu)
      as (h' & Hstep & Ht & Hid & Hq & Hset & Hkeep).
    exists h'. split_and!; try done.
    intros s Hs Hne. destruct (Hset s Hs Hne) as [-> ->].
    by rewrite lookup_insert_eq.
  - intros c first rest Hc Hq.
    rewrite (step_drain_cons ctx c first rest h Hc Hq). cbv zeta.
    change (env (on_env (set_analyticsRef (Some c)) h))
      with (set_analyticsRef (Some c) (env h)).
    destruct (first (set_analyticsRef (Some c) (env h))); simpl;
      by rewrite ?Hq.
Qed.

(** *** The disabled façade *)

(** C8. When [isEnabled] is false, [track], [page], [alias] and [identify]
    of the returned record leave the state of the hook as it is, for all
    arguments: the queue, the stored identity, [localStorage] and the trace
    (client calls, callbacks, console) are untouched, and the operations
    return (they are total functions on the state).  [user] is the same
    proxy as in any render with the same client, enabled or not. *)
Theorem disabled_facade_has_no_effect (ctx : AnalyticsContext) (h : Hook)
    (Hdisabled : isEnabled ctx = false) :
  let f := returns (useAnalytics ctx h).1 in
  (∀ op h', perform f op h' = h')
  ∧ (∀ op, step ctx (Issue op) h = Normal tt (useAnalytics ctx h).2)
  ∧ queue (useAnalytics ctx h).2 = queue h
  ∧ stored (useAnalytics ctx h).2 = stored h
  ∧ localStorage (useAnalytics ctx h).2 = localStorage h
  ∧ trace (env (useAnalytics ctx h).2) = trace (env h)
  ∧ Facade.user f = user ctx
  ∧ (∀ ctx' h', analytics ctx' = analytics ctx →
       Facade.user (returns (useAnalytics ctx' h').1) = Facade.user f).
Proof.
  unfold step, useAnalytics. rewrite Hdisabled. simpl.
  repeat split.
  - by intros [].
  - by intros [].
  - intros ctx' h' Heq. unfold user. rewrite Heq. by destruct (isEnabled ctx').
Qed.

(** *** The metadata of the newsroom *)

(** X1. [injectPrezlyMeta] keeps every property of the traits but [prezly],
    and [prezly] is the metadata of the render whatever the caller passed
    under that name; of two injections the outer one stays. *)
Theorem injectPrezlyMeta_keeps_traits_and_owns_prezly
    (ctx ctx' : AnalyticsContext) (traits : JsObj) :
  injectPrezlyMeta ctx traits !! "prezly" = Some (JsObject (prezlyMeta ctx))
  ∧ (∀ k, k ≠ "prezly" → injectPrezlyMeta ctx traits !! k = traits !! k)
  ∧ injectPrezlyMeta ctx (injectPrezlyMeta ctx' traits)
    = injectPrezlyMeta ctx traits.
Proof.
  unfold injectPrezlyMeta. split_and!.
  - apply lookup_insert_eq.
  - intros k Hk. by apply lookup_insert_ne.
  - apply insert_insert_eq.
Qed.

(** X2. The metadata always names the newsroom, names the story exactly
    when the render has one with a uuid that is not empty, names the
    tracking policy exactly when it is not [DEFAULT], and has no other
    field. *)
Theorem prezlyMeta_fields (ctx : AnalyticsContext) :
  prezlyMeta ctx !! "newsroom" = Some (JsString (newsroom_uuid (newsroom ctx)))
  ∧ prezlyMeta ctx !! "story"
    = match story ctx with
      | Some s =>
          if bool_decide (story_uuid s = "") then None
          else Some (JsString (story_uuid s))
      | None => None
      end
  ∧ prezlyMeta ctx !! "tracking_policy"
    = (if bool_decide (trackingPolicy ctx = DEFAULT) then None
       else Some (JsPolicy (trackingPolicy ctx)))
  ∧ (∀ k, k ≠ "newsroom" → k ≠ "story" → k ≠ "tracking_policy" →
       prezlyMeta ctx !! k = None).
Proof.
  unfold prezlyMeta, storyUuid, newsroomUuid.
  destruct (story ctx) as [s|]; simpl;
    [destruct (bool_decide (story_uuid s = "")); simpl|];
    (destruct (bool_decide (trackingPolicy ctx = DEFAULT)) eqn:Hp;
     [apply bool_decide_eq_true_1 in Hp;
      rewrite (bool_decide_eq_false_2 (trackingPolicy ctx ≠ DEFAULT))
        by (intros Hne; by apply Hne)
     |apply bool_decide_eq_false_1 in Hp;
      rewrite (bool_decide_eq_true_2 (trackingPolicy ctx ≠ DEFAULT)) by done]);
    split_and!; try (intros k ? ? ?); by simplify_map_eq.
Qed.

(** *** What [identify] does, and what it does not *)

(** X4. A call of [identify] does one of two things and never both.  Behind
    the closed gate it stores the identity and leaves the queue alone.
    Otherwise it appends one pending call and leaves the stored identity and
    [localStorage] alone, and the callback is not run: it travels with the
    pending call. *)
Theorem identify_defers_or_enqueues
    (ctx : AnalyticsContext) (userId : string) (traits : option JsObj)
    (callback : option Callback) (h : Hook) :
  let h' := identify ctx userId traits callback h in
  let extendedTraits := injectPrezlyMeta ctx (default ∅ traits) in
  (gate_closed ctx
   ∧ queue h' = queue h
   ∧ stored h' = Some {| userId := userId; traits := Some extendedTraits |}
   ∧ invoked (trace (env h')) = invoked (trace (env h)) ++ option_list callback)
  ∨ (¬ gate_closed ctx
     ∧ queue h' = queue h ++ [identify_call ctx userId extendedTraits callback]
     ∧ stored h' = stored h
     ∧ localStorage h' = localStorage h
     ∧ invoked (trace (env h')) = invoked (trace (env h))).
Proof.
  intros h' extendedTraits. subst h'.
  destruct (console_log_frame (LogIdentify userId extendedTraits) h)
    as (Hq & Hs & Hl & _ & Hi & _).
  destruct (bool_decide (trackingPolicy ctx = CONSENT_TO_IDENTIFY)) eqn:Hp;
    [destruct (consent ctx) eqn:Hc|].
  - right. assert (¬ gate_closed ctx) as Hopen by (intros [_ ?]; congruence).
    rewrite (identify_gate_open ctx _ _ _ _ Hopen). simpl.
    fold extendedTraits. by rewrite Hq, Hs, Hl, Hi.
  - left. apply bool_decide_eq_true_1 in Hp.
    assert (gate_closed ctx) as Hgate by done.
    rewrite (identify_gate_closed ctx _ _ _ _ Hgate). cbv zeta.
    fold extendedTraits. split; [done|].
    destruct callback as [cb|]; simpl;
      rewrite ?invoked_app, Hq, Hi; simpl; by rewrite ?app_nil_r.
  - right. apply bool_decide_eq_false_1 in Hp.
    assert (¬ gate_closed ctx) as Hopen by (by intros [? _]).
    rewrite (identify_gate_open ctx _ _ _ _ Hopen). simpl.
    fold extendedTraits. by rewrite Hq, Hs, Hl, Hi.
Qed.

(** *** The console *)

Lemma console_app t t' : console (t ++ t') = console t ++ console t'.
Proof. apply omap_app. Qed.

(** X5. An operation of the enabled façade writes to the console once, its
    name and the arguments after enrichment, and in a production build not
    at all.  An [identify] held back by the consent gate is logged like one
    that is enqueued. *)
Theorem operations_log_once_outside_production
    (ctx : AnalyticsContext) (op : Op) (h : Hook)
    (Henabled : isEnabled ctx = true) :
  let h' := state_of (step ctx (Issue op) h) in
  console (trace (env h'))
  = console (trace (env h))
    ++ (if production (env h) then [] else [log_of ctx op]).
Proof.
  unfold step, useAnalytics. rewrite Henabled. simpl.
  destruct op as [userId traits callback| | |]; simpl;
    unfold identify, alias, page, track, console_log; simpl;
    destruct (production (env h)); simpl;
    try destruct (bool_decide (trackingPolicy ctx = CONSENT_TO_IDENTIFY));
    try destruct (consent ctx); simpl;
    try destruct callback; simpl;
    rewrite ?console_app; simpl; by rewrite ?app_nil_r.
Qed.

(** *** Calls that are not held back *)

(** X3. [alias] is not held back by the consent gate: under any render of
    the enabled façade, whatever its policy and consent, the call is
    enqueued without touching the stored identity, and the client that
    drains it receives the two ids as they were passed. *)
Theorem alias_is_not_consent_gated
    (ctx ctx' : AnalyticsContext) (userId previousId : string) (h : Hook)
    (c : Client)
    (Henabled : isEnabled ctx = true) (Hempty : queue h = [])
    (Hclient : analytics ctx' = Some c) (Hcan : can_alias c = true) :
  let issue := step ctx (Issue (Alias userId previousId)) h in
  let final :=
    state_of (run [(ctx, Issue (Alias userId previousId)); (ctx', Drain)] h) in
  returned issue = true
  ∧ stored (state_of issue) = stored h
  ∧ localStorage (state_of issue) = localStorage h
  ∧ received (trace (env final))
    = received (trace (env h))
      ++ [(client_name c,
           CallAlias userId previousId (buildOptions ctx (env h)))].
Proof.
  intros issue final. subst issue final.
  destruct (step_issue_enqueues ctx (Alias userId previousId) h Henabled I)
    as (h1 & Hstep & _ & Hs & Hl & _).
  rewrite Hstep. simpl state_of. simpl returned.
  split_and!; try done.
  by apply (run_issue_drain ctx ctx' (Alias userId previousId) h c).
Qed.

(** X6. A pending call drained under a client that does not offer its
    method is given up without a trace: the client receives nothing, none of
    its methods is called (so nothing can throw), and the entry has left the
    queue, so no later client gets it either. *)
Theorem call_without_capability_is_dropped
    (ctx ctx' : AnalyticsContext) (op : Op) (h : Hook) (c : Client)
    (Henabled : isEnabled ctx = true) (Hopen : enqueued_under ctx op)
    (Hempty : queue h = [])
    (Hclient : analytics ctx' = Some c) (Hmissing : offers c op = false) :
  ∃ h',
    run [(ctx, Issue op); (ctx', Drain)] h = Normal tt h'
    ∧ queue h' = []
    ∧ received (trace (env h')) = received (trace (env h)).
Proof.
  rewrite run_cons.
  destruct (step_issue_enqueues ctx op h Henabled Hopen)
    as (h1 & -> & Hq & _ & _ & Hr & _ & _ & _).
  rewrite Hempty in Hq. simpl in Hq.
  rewrite run_cons, (step_drain_cons ctx' c _ _ h1 Hclient Hq). cbv zeta.
  rewrite (closure_of_present ctx op _ c) by done.
  rewrite Hmissing. simpl. eexists. split; [done|]. simpl.
  split; [by rewrite Hq | done].
Qed.

(** *** Round trips of the deferred identity *)

(** A call of the UI and the consent reaction read [navigator.userAgent]
    and leave it alone. *)
Lemma step_keeps_navigator ctx a h :
  a ≠ Drain →
  navigator_userAgent (env (state_of (step ctx a h)))
  = navigator_userAgent (env h).
Proof.
  intros Ha. unfold step, useAnalytics. simpl.
  destruct a as [op| |]; [| done |].
  - destruct (isEnabled ctx); simpl; [|by destruct op].
    destruct op as [userId traits callback| | |]; simpl;
      unfold identify, alias, page, track, console_log; simpl;
      destruct (production (env h)); simpl;
      try destruct (bool_decide (trackingPolicy ctx = CONSENT_TO_IDENTIFY));
      try destruct (consent ctx); simpl;
      try destruct callback; done.
  - unfold consent_effect, identify, console_log. simpl.
    destruct (consent ctx); simpl.
    + destruct (stored h) as [d|]; simpl; [|done].
      destruct (production (env h)); simpl;
        destruct (bool_decide (trackingPolicy ctx = CONSENT_TO_IDENTIFY)); done.
    + destruct (user ctx); simpl; [|done].
      destruct (ajs_user_id (env h)) as [s|]; simpl; [|done].
      by destruct (bool_decide (s = "")).
Qed.

Lemma run_cons_normal ctx a script h h1 :
  step ctx a h = Normal tt h1 → run ((ctx, a) :: script) h = run script h1.
Proof. intros Hstep. by rewrite run_cons, Hstep. Qed.

(** The reaction with consent followed by one notification, on an empty
    queue and with a client that offers [identify]. *)
Lemma run_replay_drain ctx c d h :
  consent ctx = true → analytics ctx = Some c → can_identify c = true →
  stored h = Some d → queue h = [] →
  let final := state_of (run [(ctx, React); (ctx, Drain)] h) in
  received (trace (env final))
  = received (trace (env h))
    ++ [(client_name c,
         CallIdentify (userId d) (injectPrezlyMeta ctx (default ∅ (traits d)))
           (buildOptions ctx (env h)) None)]
  ∧ invoked (trace (env final)) = invoked (trace (env h))
  ∧ stored final = None
  ∧ localStorage final = delete DEFERRED_IDENTITY_STORAGE_KEY (localStorage h).
Proof.
  intros Hconsent Hc Hcan Hs Hempty final. subst final.
  rewrite run_cons, (react_with_consent ctx h d Hconsent Hs).
  assert (¬ gate_closed ctx) as Hopen by (intros [_ ?]; congruence).
  rewrite (identify_gate_open ctx _ _ _ _ Hopen). cbv zeta.
  match goal with |- context [console_log ?entry ?h0] =>
    destruct (console_log_frame entry h0) as (Hq & _ & Hl & Hr & Hi & _ & _ & Hn);
    set (h1 := console_log entry h0) in *
  end.
  simpl in Hq, Hl, Hr, Hi, Hn. rewrite Hempty in Hq.
  set (first := identify_call ctx (userId d)
                  (injectPrezlyMeta ctx (default ∅ (traits d))) None).
  rewrite run_cons.
  rewrite (step_drain_cons ctx c first [] _ Hc)
    by (simpl; by rewrite Hq).
  cbv zeta. simpl env.
  set (e0 := set_analyticsRef (Some c) (env h1)).
  assert (first e0
          = invoke c
              (CallIdentify (userId d)
                 (injectPrezlyMeta ctx (default ∅ (traits d)))
                 (buildOptions ctx (env h)) None) e0) as ->.
  { unfold first, identify_call. simpl. rewrite Hcan.
    by rewrite (buildOptions_navigator ctx e0 (env h)). }
  unfold invoke.
  destruct (throws c _); simpl;
    rewrite received_app, invoked_app, Hr, Hi, Hl; simpl;
    by rewrite ?app_nil_r.
Qed.

(** X7. An [identify] held back by the consent gate reaches the client
    once consent is given: after the reaction and one notification under a
    render with consent and a client that offers [identify], the client has
    received [identify] for the same user id, with the traits enriched by
    the metadata of the render that has consent and with the options of that
    render.  The callback ran when the call was held back and is not passed
    on.  Nothing stays stored. *)
Theorem deferred_identity_reaches_client_after_consent
    (ctx ctx' : AnalyticsContext) (userId : string) (traits : option JsObj)
    (callback : option Callback) (h : Hook) (c : Client)
    (Hgate : gate_closed ctx) (Henabled : isEnabled ctx = true)
    (Hconsent : consent ctx' = true)
    (Hclient : analytics ctx' = Some c) (Hcan : can_identify c = true)
    (Hempty : queue h = []) :
  let final :=
    state_of (run [(ctx, Issue (Identify userId traits callback));
                   (ctx', React); (ctx', Drain)] h) in
  received (trace (env final))
  = received (trace (env h))
    ++ [(client_name c,
         CallIdentify userId (injectPrezlyMeta ctx' (default ∅ traits))
           (buildOptions ctx' (env h)) None)]
  ∧ invoked (trace (env final))
    = invoked (trace (env h)) ++ option_list callback
  ∧ stored final = None
  ∧ localStorage final !! DEFERRED_IDENTITY_STORAGE_KEY = None.
Proof.
  intros final. subst final. rewrite run_cons.
  pose proof (step_keeps_navigator ctx (Issue (Identify userId traits callback)) h
                ltac:(done)) as Hn.
  set (a := {| under := ctx; with_userId := userId; with_traits := traits;
               with_callback := callback |}).
  set (h0 := on_env (set_analyticsRef (analytics ctx)) h).
  assert (step ctx (Issue (Identify userId traits callback)) h
          = Normal tt (identify_with h0 a)) as Hstep.
  { unfold step, useAnalytics. by rewrite Henabled. }
  rewrite Hstep in Hn |- *. simpl state_of in Hn.
  destruct (identify_with_gate_closed h0 a Hgate) as (Hs & _ & Hq & Hr & Hi).
  simpl in Hq, Hr, Hi. rewrite Hempty in Hq.
  destruct (run_replay_drain ctx' c (deferred_by a) (identify_with h0 a)
              Hconsent Hclient Hcan Hs Hq) as (Hr' & Hi' & Hs' & Hl').
  rewrite Hr', Hi', Hs', Hl', Hr, Hi. simpl.
  rewrite (buildOptions_navigator ctx' _ (env h) Hn).
  unfold injectPrezlyMeta. rewrite insert_insert_eq.
  by rewrite lookup_delete_eq.
Qed.

(** X8. Withdrawing consent and giving it again brings the user back: when
    the client knows the user under a non-empty id and the reaction runs
    without consent, then with consent, one notification later the client
    receives [identify] for that id, with no traits but the metadata. *)
Theorem withdrawn_identity_is_restored_on_consent
    (ctx ctx' : AnalyticsContext) (h : Hook) (c : Client) (s : string)
    (Hwithdrawn : consent ctx = false) (Hgiven : consent ctx' = true)
    (Hclient : analytics ctx = Some c) (Hclient' : analytics ctx' = Some c)
    (Huser : can_user c = true) (Hcan : can_identify c = true)
    (Hid : ajs_user_id (env h) = Some s) (Hne : s ≠ "")
    (Hempty : queue h = []) :
  let final :=
    state_of (run [(ctx, React); (ctx', React); (ctx', Drain)] h) in
  ajs_user_id (env (state_of (step ctx React h))) = None
  ∧ received (trace (env final))
    = received (trace (env h))
      ++ [(client_name c,
           CallIdentify s (injectPrezlyMeta ctx' ∅) (buildOptions ctx' (env h))
             None)]
  ∧ stored final = None
  ∧ localStorage final !! DEFERRED_IDENTITY_STORAGE_KEY = None.
Proof.
  intros final. subst final.
  pose proof (step_keeps_navigator ctx React h ltac:(done)) as Hn.
  assert (user ctx = ClientUser c) as Hu
    by (unfold user; by rewrite Hclient, Huser).
  destruct (react_without_consent_client ctx c h Hwithdrawn Hu)
    as (h1 & Hstep & Ht & Hid1 & Hq & Hset & _).
  rewrite (run_cons_normal _ _ _ _ _ Hstep).
  rewrite Hstep in Hn |- *. simpl in Hn.
  change (state_of (Normal tt h1)) with h1.
  destruct (Hset s Hid Hne) as [Hs Hl]. rewrite Hempty in Hq.
  destruct (run_replay_drain ctx' c {| userId := s; traits := None |} h1
              Hgiven Hclient' Hcan Hs Hq) as (Hr' & _ & Hs' & Hl').
  rewrite Hr', Hs', Hl', Ht, received_app. simpl.
  rewrite (buildOptions_navigator ctx' _ (env h) Hn), app_nil_r.
  by rewrite lookup_delete_eq.
Qed.

(** *** What the client can receive *)

(** An invariant of scripts: while the renders satisfy [G], the queue holds
    pending calls of items satisfying [P] only, and every call a client has
    received satisfies [Q]. *)
Section Kept.

Variable G : AnalyticsContext → Prop.
Variable P : AnalyticsContext * Op → Prop.
Variable Q : ClientCall → Prop.

Hypothesis P_call : ∀ ctx op e, P (ctx, op) → Q (call_of ctx op e).
Hypothesis P_issue : ∀ ctx op,
  G ctx → isEnabled ctx = true → enqueued_under ctx op → P (ctx, op).
Hypothesis P_replay : ∀ ctx d,
  G ctx → consent ctx = true → P (ctx, Identify (userId d) (traits d) None).

Definition kept (h : Hook) : Prop :=
  (∃ items, queue h = pending <$> items ∧ Forall P items)
  ∧ Forall (λ x, Q x.2) (received (trace (env h))).

Lemma kept_frame h h' :
  queue h' = queue h →
  received (trace (env h')) = received (trace (env h)) →
  kept h → kept h'.
Proof. intros Hq Hr [Hitems Hcalls]. split; by rewrite ?Hq, ?Hr. Qed.

Lemma kept_enqueue ctx op h h' :
  P (ctx, op) →
  queue h' = queue h ++ [closure_of ctx op] →
  received (trace (env h')) = received (trace (env h)) →
  kept h → kept h'.
Proof.
  intros HP Hq Hr [(items & Hitems & Hall) Hcalls]. split; [|by rewrite Hr].
  exists (items ++ [(ctx, op)]). rewrite Hq, Hitems, fmap_app.
  split; [done|]. apply Forall_app. split; [done|]. by constructor.
Qed.

Lemma step_kept ctx a h : G ctx → kept h → kept (state_of (step ctx a h)).
Proof.
  intros HG Hkept. destruct a as [op| |].
  - destruct (isEnabled ctx) eqn:Henabled.
    + assert (enqueued_under ctx op ∨ ∃ userId traits callback,
                op = Identify userId traits callback ∧ gate_closed ctx)
        as [Hopen|(userId & traits & callback & -> & Hgate)].
      { destruct op as [userId traits callback| | |]; simpl; try by left.
        destruct (decide (trackingPolicy ctx = CONSENT_TO_IDENTIFY
                          ∧ consent ctx = false)) as [Hgate|Hopen].
        - right. by exists userId, traits, callback.
        - by left. }
      * destruct (step_issue_enqueues ctx op h Henabled Hopen)
          as (h' & -> & Hq & _ & _ & Hr & _).
        apply (kept_enqueue ctx op h h'); auto.
      * set (a := {| under := ctx; with_userId := userId;
                     with_traits := traits; with_callback := callback |}).
        set (h0 := on_env (set_analyticsRef (analytics ctx)) h).
        assert (step ctx (Issue (Identify userId traits callback)) h
                = Normal tt (identify_with h0 a)) as ->.
        { unfold step, useAnalytics. by rewrite Henabled. }
        destruct (identify_with_gate_closed h0 a Hgate) as (_ & _ & Hq & Hr & _).
        by apply (kept_frame h).
    + assert (step ctx (Issue op) h
              = Normal tt (on_env (set_analyticsRef (analytics ctx)) h)) as ->.
      { unfold step, useAnalytics. rewrite Henabled. by destruct op. }
      by apply (kept_frame h).
  - destruct Hkept as [(items & Hitems & Hall) Hcalls].
    destruct (analytics ctx) as [c|] eqn:Hc;
      [destruct items as [|[ictx op] items]|].
    + rewrite step_drain_idle by (by right).
      apply (kept_frame h); [done|done|]. split; [by exists []|done].
    + simpl in Hitems. rewrite (step_drain_cons ctx c _ _ h Hc Hitems).
      cbv zeta. unfold pending at 1. simpl fst. simpl snd.
      rewrite (closure_of_present ictx op _ c) by done.
      apply Forall_cons in Hall as [Hhead Hall].
      destruct (offers c op); [unfold invoke; destruct (throws c _)|]; simpl.
      * split; [exists ((ictx, op) :: items); simpl; by split; [|constructor]|].
        simpl. rewrite received_app. apply Forall_app. split; [done|].
        repeat constructor. simpl. by apply P_call.
      * split; [exists items; simpl; by rewrite Hitems|].
        simpl. rewrite received_app. apply Forall_app. split; [done|].
        repeat constructor. simpl. by apply P_call.
      * split; [exists items; simpl; by rewrite Hitems|done].
    + rewrite step_drain_idle by (by left).
      apply (kept_frame h); [done|done|]. split; [by exists items|done].
  - destruct (consent ctx) eqn:Hconsent.
    + destruct (stored h) as [d|] eqn:Hstored.
      * rewrite (react_with_consent ctx h d Hconsent Hstored).
        assert (¬ gate_closed ctx) as Hopen by (intros [_ ?]; congruence).
        rewrite (identify_gate_open ctx _ _ _ _ Hopen). cbv zeta.
        match goal with |- context [console_log ?entry ?h0] =>
          destruct (console_log_frame entry h0) as (Hq & _ & _ & Hr & _)
        end.
        apply (kept_enqueue ctx (Identify (userId d) (traits d) None) h);
          [by apply P_replay| |done|done].
        simpl in *. by rewrite Hq.
      * rewrite (react_with_consent_idle ctx h Hconsent Hstored).
        by apply (kept_frame h).
    + destruct (user ctx) as [c|] eqn:Hu.
      * destruct (react_without_consent_client ctx c h Hconsent Hu)
          as (h' & -> & Ht & _ & Hq & _).
        apply (kept_frame h); [done| |done].
        simpl. rewrite Ht, received_app. simpl. by rewrite app_nil_r.
      * destruct (react_without_consent_fake ctx h Hconsent Hu)
          as (h' & -> & He & Hq & _).
        apply (kept_frame h); [done| |done]. simpl. by rewrite He.
Qed.

Lemma run_kept script : ∀ h,
  Forall (λ entry, G entry.1) script → kept h → kept (state_of (run script h)).
Proof.
  induction script as [|[ctx a] script IH]; intros h HG Hkept; [done|].
  apply Forall_cons in HG as [Hctx HG].
  pose proof (step_kept ctx a h Hctx Hkept) as Hstep.
  rewrite run_cons. destruct (step ctx a h) as [[] h1|h1]; simpl in *.
  - by apply IH.
  - done.
Qed.

End Kept.

(** X11. While every render has the tracking policy [CONSENT_TO_IDENTIFY]
    and no consent, no client receives an [identify]: whatever the UI
    calls, in whatever order the effects run and whichever clients come and
    go, the calls received by clients stay free of [identify]. *)
Theorem no_identify_reaches_client_behind_closed_gate
    (script : list (AnalyticsContext * Action)) (h : Hook)
    (Hgate : Forall (λ entry, gate_closed entry.1) script)
    (Hempty : queue h = [])
    (Hbefore : Forall (λ x, is_identify x.2 = false) (received (trace (env h)))) :
  Forall (λ x, is_identify x.2 = false)
    (received (trace (env (state_of (run script h))))).
Proof.
  apply (run_kept gate_closed
           (λ item, match item.2 with Identify _ _ _ => False | _ => True end)
           (λ call, is_identify call = false)).
  - intros ctx op e. by destruct op.
  - intros ctx op HG _ Hopen. by destruct op.
  - intros ctx d [_ HG] Hconsent. congruence.
  - done.
  - split; [by exists []|done].
Qed.

(** X12. While no render has consent, no call that a client receives
    carries [userAgent], whichever operation it comes from and whatever the
    tracking policy is. *)
Theorem no_userAgent_reaches_client_without_consent
    (script : list (AnalyticsContext * Action)) (h : Hook)
    (Hconsent : Forall (λ entry, consent entry.1 = false) script)
    (Hempty : queue h = [])
    (Hbefore : Forall (λ x, userAgent (context (options_of x.2)) = None)
                 (received (trace (env h)))) :
  Forall (λ x, userAgent (context (options_of x.2)) = None)
    (received (trace (env (state_of (run script h))))).
Proof.
  apply (run_kept (λ ctx, consent ctx = false)
           (λ item, consent item.1 = false)
           (λ call, userAgent (context (options_of call)) = None)).
  - intros ctx op e. simpl. intros Hc.
    assert (options_of (call_of ctx op e) = buildOptions ctx e) as ->
      by (by destruct op).
    unfold buildOptions. by rewrite Hc.
  - by intros ctx op HG _ _.
  - intros ctx d HG Hc. congruence.
  - done.
  - split; [by exists []|done].
Qed.

(** *** Order of delivery *)

(** With a client [c] that returns from every call, at any point of a script
    of calls and notifications the client has received the first [n] of the
    calls issued so far and the others are pending, both in the order of
    issue. *)
Lemma run_with_client c script : ∀ h,
  queue h = [] →
  Forall (with_client c) script →
  (∀ call, throws c call = false) →
  ∃ h' n,
    run script h = Normal tt h'
    ∧ (n ≤ length (issued script))%nat
    ∧ queue h' = pending <$> drop n (issued script)
    ∧ received (trace (env h'))
      = received (trace (env h))
        ++ received (deliveries c (env h) (take n (issued script)))
    ∧ navigator_userAgent (env h') = navigator_userAgent (env h).
Proof.
  induction script as [|[ctx a] script IH] using rev_ind;
    intros h Hempty Hall Hret.
  - exists h, 0. simpl. by rewrite app_nil_r.
  - apply Forall_app in Hall as [Hscript Hentry].
    apply Forall_singleton in Hentry as [Hanalytics Ha]. simpl in Hanalytics, Ha.
    destruct (IH h Hempty Hscript Hret) as (h1 & n & Hrun & Hn & Hq & Hr & Hnav).
    rewrite run_app, Hrun. unfold issued. rewrite omap_app. fold (issued script).
    rewrite run_cons. simpl run.
    destruct a as [op| |]; [| |done].
    + destruct Ha as [Henabled Hopen].
      destruct (step_issue_enqueues ctx op h1 Henabled Hopen)
        as (h2 & -> & Hq2 & _ & _ & Hr2 & _ & _ & Hnav2).
      exists h2, n. csimpl.
      rewrite drop_app_le, take_app_le, fmap_app, length_app by done.
      split_and!; [done|lia| |congruence|congruence].
      by rewrite Hq2, Hq.
    + csimpl. rewrite app_nil_r.
      destruct (issued script !! n) as [[ictx op]|] eqn:Hitem;
        [destruct Hanalytics as [Hnone|Hsome]|].
      * rewrite step_drain_idle by (by left).
        exists (on_env (set_analyticsRef (analytics ctx)) h1), n.
        by split_and!.
      * rewrite (drop_S _ _ _ Hitem) in Hq. simpl in Hq.
        rewrite (step_drain_cons ctx c _ _ h1 Hsome Hq). cbv zeta.
        unfold pending at 1. simpl fst. simpl snd.
        rewrite (closure_of_present ictx op _ c) by done.
        apply lookup_lt_Some in Hitem as Hlt.
        set (e0 := env (on_env (set_analyticsRef (Some c)) h1)).
        assert (∃ e1, (if offers c op then invoke c (call_of ictx op e0) e0
                       else Normal tt e0) = Normal tt e1
                  ∧ received (trace e1)
                    = received (trace (env h1))
                      ++ received (deliveries c (env h) [(ictx, op)])
                  ∧ navigator_userAgent e1 = navigator_userAgent (env h1))
          as (e1 & -> & Hr1 & Hn1).
        { unfold deliveries. csimpl. destruct (offers c op).
          - unfold invoke. rewrite Hret. eexists. split; [done|]. simpl.
            rewrite received_app. split; [|done].
            by rewrite (call_of_navigator ictx op e0 (env h)).
          - exists e0. simpl. by rewrite app_nil_r. }
        eexists _, (S n). split; [done|]. simpl.
        rewrite (take_S_r _ _ _ Hitem).
        unfold deliveries at 1. rewrite omap_app, received_app.
        fold (deliveries c (env h) (take n (issued script))).
        fold (deliveries c (env h) [(ictx, op)]).
        split_and!; [lia|by rewrite Hq| |congruence].
        by rewrite Hr1, Hr, <-app_assoc.
      * apply lookup_ge_None_1 in Hitem.
        rewrite (drop_ge _ _ Hitem) in Hq.
        rewrite step_drain_idle by (by right).
        exists (on_env (set_analyticsRef (analytics ctx)) h1), n.
        split_and!; try done. simpl. by rewrite Hq, (drop_ge _ _ Hitem).
Qed.

(** X13. However calls and notifications interleave, a client that returns
    from every call receives the calls in the order they were issued,
    without gap and without repetition: at the end of any script of calls
    and notifications, what the client has received is a first part of the
    issued calls, and the queue holds exactly the others, in order. *)
Theorem interleaved_calls_keep_their_order
    (c : Client) (script : list (AnalyticsContext * Action)) (h : Hook)
    (Hempty : queue h = [])
    (Hscript : Forall (with_client c) script)
    (Hreturns : ∀ call, throws c call = false) :
  ∃ h' n,
    run script h = Normal tt h'
    ∧ (n ≤ length (issued script))%nat
    ∧ queue h' = pending <$> drop n (issued script)
    ∧ received (trace (env h'))
      = received (trace (env h))
        ++ received (deliveries c (env h) (take n (issued script))).
Proof.
  destruct (run_with_client c script h Hempty Hscript Hreturns)
    as (h' & n & ? & ? & ? & ? & _).
  by exists h', n.
Qed.

(** *** Without a client *)

Lemma step_without_client ctx a h :
  analytics ctx = None →
  ∃ h', step ctx a h = Normal tt h'
    ∧ received (trace (env h')) = received (trace (env h))
    ∧ ajs_user_id (env h') = ajs_user_id (env h)
    ∧ queue h `prefix_of` queue h'.
Proof.
  intros Hnone. destruct a as [op| |].
  - unfold step, useAnalytics. simpl. eexists. split; [done|].
    destruct (isEnabled ctx); simpl; [|by destruct op].
    destruct op as [userId traits callback| | |]; simpl;
      unfold identify, alias, page, track, console_log; simpl;
      destruct (production (env h)); simpl;
      try destruct (bool_decide (trackingPolicy ctx = CONSENT_TO_IDENTIFY));
      try destruct (consent ctx); simpl;
      try destruct callback; simpl;
      rewrite ?received_app; simpl; rewrite ?app_nil_r;
      split_and!; try done; by apply prefix_app_r.
  - rewrite step_drain_idle by (by left). by eexists.
  - destruct (consent ctx) eqn:Hconsent.
    + destruct (stored h) as [d|] eqn:Hstored.
      * rewrite (react_with_consent ctx h d Hconsent Hstored).
        assert (¬ gate_closed ctx) as Hopen by (intros [_ ?]; congruence).
        rewrite (identify_gate_open ctx _ _ _ _ Hopen). cbv zeta.
        match goal with |- context [console_log ?entry ?h0] =>
          destruct (console_log_frame entry h0)
            as (Hq & _ & _ & Hr & _ & _ & Hid & _)
        end.
        eexists. split; [done|]. simpl in *. rewrite Hq, Hr, Hid.
        split_and!; try done. by apply prefix_app_r.
      * rewrite (react_with_consent_idle ctx h Hconsent Hstored). by eexists.
    + assert (user ctx = FakeUser) as Hu by (unfold user; by rewrite Hnone).
      destruct (react_without_consent_fake ctx h Hconsent Hu)
        as (h' & -> & He & Hq & _).
      exists h'. rewrite He, Hq. by split_and!.
Qed.

(** X15. While no render knows a client, nothing reaches a client and
    nothing is lost: no script throws, no client call and no change of the
    user id happens, and every pending call stays in the queue, at its
    place, behind it the calls that came later. *)
Theorem calls_wait_while_no_client_is_known
    (script : list (AnalyticsContext * Action)) (h : Hook)
    (Hnone : Forall (λ entry, analytics entry.1 = None) script) :
  ∃ h',
    run script h = Normal tt h'
    ∧ received (trace (env h')) = received (trace (env h))
    ∧ ajs_user_id (env h') = ajs_user_id (env h)
    ∧ queue h `prefix_of` queue h'.
Proof.
  revert h. induction script as [|[ctx a] script IH]; intros h.
  - by exists h.
  - apply Forall_cons in Hnone as [Hctx Hnone].
    destruct (step_without_client ctx a h Hctx) as (h1 & Hstep & Hr & Hid & Hq).
    destruct (IH Hnone h1) as (h' & Hrun & Hr' & Hid' & Hq').
    exists h'. rewrite run_cons, Hstep.
    split_and!; [done|congruence|congruence|by etrans].
Qed.

(** *** Edges of the consent reaction *)

(** X14. Without consent and without a user API to talk to (no client, or a
    client that has no [user]), the reaction changes nothing but the
    reference cell: nothing is stored, nothing is queued, nothing is
    called, and an id the client may keep is not erased. *)
Theorem reaction_without_user_api_changes_nothing
    (ctx : AnalyticsContext) (h : Hook)
    (Hconsent : consent ctx = false)
    (Hfake : analytics ctx = None
             ∨ ∃ c, analytics ctx = Some c ∧ can_user c = false) :
  ∃ h',
    step ctx React h = Normal tt h'
    ∧ queue h' = queue h
    ∧ stored h' = stored h
    ∧ localStorage h' = localStorage h
    ∧ trace (env h') = trace (env h)
    ∧ ajs_user_id (env h') = ajs_user_id (env h)
    ∧ analyticsRef (env h') = analytics ctx.
Proof.
  assert (user ctx = FakeUser) as Hu.
  { unfold user. destruct Hfake as [->|(c & -> & ->)]; done. }
  destruct (react_without_consent_fake ctx h Hconsent Hu)
    as (h' & Hstep & He & Hq & Hs & Hl).
  exists h'. rewrite He. by split_and!.
Qed.

(** X16. The replay of a stored identity does not look at [isEnabled]:
    under a disabled render with consent, the reaction still hands the
    stored identity to the hook's own [identify], and one notification later
    a client that offers [identify] has received it, although the
    [identify] of the returned record does nothing. *)
Theorem disabled_hook_still_replays_stored_identity
    (ctx : AnalyticsContext) (c : Client) (d : DeferredIdentity) (h : Hook)
    (Hdisabled : isEnabled ctx = false) (Hconsent : consent ctx = true)
    (Hclient : analytics ctx = Some c) (Hcan : can_identify c = true)
    (Hstored : stored h = Some d) (Hempty : queue h = []) :
  let final := state_of (run [(ctx, React); (ctx, Drain)] h) in
  (∀ userId traits callback,
     step ctx (Issue (Identify userId traits callback)) h
     = Normal tt (useAnalytics ctx h).2)
  ∧ received (trace (env final))
    = received (trace (env h))
      ++ [(client_name c,
           CallIdentify (userId d) (injectPrezlyMeta ctx (default ∅ (traits d)))
             (buildOptions ctx (env h)) None)]
  ∧ stored final = None.
Proof.
  intros final. subst final.
  destruct (run_replay_drain ctx c d h Hconsent Hclient Hcan Hstored Hempty)
    as (Hr & _ & Hs & _).
  split_and!; [|done|done].
  intros userId traits callback. unfold step, useAnalytics.
  by rewrite Hdisabled.
Qed.

(** *** Attribution *)

Lemma call_of_attributed ctx op e :
  attributed_to (newsroom_uuid (newsroom ctx)) (call_of ctx op e).
Proof.
  assert (prezlyMeta ctx !! "newsroom"
          = Some (JsString (newsroom_uuid (newsroom ctx)))) as Hmeta.
  { unfold prezlyMeta, newsroomUuid.
    destruct (storyUuid ctx) as [s|]; simpl;
      [destruct (bool_decide (s = "")); simpl|];
      destruct (bool_decide (trackingPolicy ctx ≠ DEFAULT));
      by simplify_map_eq. }
  unfold attributed_to.
  destruct op; simpl; try done;
    exists (prezlyMeta ctx); (split; [apply lookup_insert_eq | done]).
Qed.

(** X17. While every render is of the newsroom [uuid], every [identify],
    [page] and [track] that a client receives is attributed to it: the
    traits or properties carry a [prezly] object that names [uuid] as
    newsroom, whatever the caller passed as [prezly] and also for an
    identity that is replayed from the storage. *)
Theorem received_calls_carry_the_newsroom
    (uuid : string) (script : list (AnalyticsContext * Action)) (h : Hook)
    (Hnewsroom : Forall (λ entry, newsroom_uuid (newsroom entry.1) = uuid) script)
    (Hempty : queue h = [])
    (Hbefore : Forall (λ x, attributed_to uuid x.2) (received (trace (env h)))) :
  Forall (λ x, attributed_to uuid x.2)
    (received (trace (env (state_of (run script h))))).
Proof.
  apply (run_kept (λ ctx, newsroom_uuid (newsroom ctx) = uuid)
           (λ item, newsroom_uuid (newsroom item.1) = uuid)
           (attributed_to uuid)).
  - intros ctx op e. simpl. intros <-. apply call_of_attributed.
  - by intros ctx op HG _ _.
  - by intros ctx d HG _.
  - done.
  - split; [by exists []|done].
Qed.

End UseAnalytics.

(** ** The properties on the sample data *)

Import Sample.

(** Two calls of [identify] behind the closed gate: the second one is what
    stays stored, the callback of the first one has run, nothing is queued. *)
Lemma identify_without_consent_defers_sample :
  let waiting := render None false true CONSENT_TO_IDENTIFY in
  let a1 := {| under := waiting; with_userId := "u1";
               with_traits := Some {[ "plan" := JsString "pro" ]};
               with_callback := Some {| callback_name := 7 |} |} in
  let a2 := {| under := waiting; with_userId := "u2";
               with_traits := None; with_callback := None |} in
  let h' := foldl (identify_with "3.2.0") fresh ([a1] ++ [a2]) in
  Forall (λ a, gate_closed (under a)) ([a1] ++ [a2])
  ∧ stored h' = Some (deferred_by a2)
  ∧ localStorage h'
    = <[DEFERRED_IDENTITY_STORAGE_KEY := deferred_by a2]> (localStorage fresh)
  ∧ localStorage h' !! DEFERRED_IDENTITY_STORAGE_KEY = Some (deferred_by a2)
  ∧ queue h' = queue fresh
  ∧ received (trace (env h')) = received (trace (env fresh))
  ∧ invoked (trace (env h'))
    = invoked (trace (env fresh)) ++ omap with_callback ([a1] ++ [a2]).
Proof.
  intros waiting a1 a2 h'.
  assert (Forall (λ a, gate_closed (under a)) ([a1] ++ [a2])) as Hgate
    by (repeat constructor).
  split; [exact Hgate|].
  exact (identify_without_consent_defers "3.2.0" fresh [a1] a2 Hgate).
Defined.

(** A click tracked before the client is there reaches the client that
    arrives afterwards. *)
Lemma pending_call_reads_client_when_it_runs_sample :
  let loading := render None true true DEFAULT in
  let ready := render (Some segment) true true DEFAULT in
  isEnabled loading = true
  ∧ enqueued_under loading click
  ∧ received
      (trace (env (state_of
         (run "3.2.0" [(loading, Issue click); (ready, Drain)] fresh))))
    = received (trace (env fresh))
      ++ [(client_name segment, call_of "3.2.0" loading click (env fresh))].
Proof.
  intros loading ready.
  assert (isEnabled loading = true) as Henabled by reflexivity.
  assert (enqueued_under loading click) as Hopen by exact I.
  split; [exact Henabled|]. split; [exact Hopen|].
  exact (proj2 (proj2 (proj2 (proj2
           (pending_call_reads_client_when_it_runs "3.2.0" loading click fresh
              Henabled Hopen))))
         ready segment eq_refl eq_refl eq_refl eq_refl).
Defined.

(** Three calls issued while the client loads, with a notification and a
    consent reaction in between; two notifications once it is ready. *)
Lemma queued_calls_fire_once_in_order_sample :
  let loading := render None true true DEFAULT in
  let denied := render None false true DEFAULT in
  let ready := render (Some segment) true true DEFAULT in
  let script := [(loading, Issue click); (loading, Drain);
                 (loading, Issue visit); (denied, React);
                 (loading, Issue login)] in
  queue fresh = []
  ∧ Forall before_client script
  ∧ analytics ready = Some segment
  ∧ (∀ call, throws segment call = false)
  ∧ ∃ h1 hk,
      run "3.2.0" script fresh = Normal tt h1
      ∧ queue h1 = pending "3.2.0" <$> issued script
      ∧ received (trace (env h1)) = received (trace (env fresh))
      ∧ run "3.2.0" (replicate 2 (ready, Drain)) h1 = Normal tt hk
      ∧ queue hk = pending "3.2.0" <$> drop 2 (issued script)
      ∧ trace (env hk)
        = trace (env h1)
          ++ deliveries "3.2.0" segment (env fresh) (take 2 (issued script)).
Proof.
  intros loading denied ready script.
  assert (Forall before_client script) as Hbefore.
  { repeat constructor; simpl; intros [_ Hc]; discriminate Hc. }
  assert (∀ call, throws segment call = false) as Hreturns by reflexivity.
  split; [reflexivity|]. split; [exact Hbefore|].
  split; [reflexivity|]. split; [exact Hreturns|].
  exact (queued_calls_fire_once_in_order "3.2.0" script fresh ready segment 2
           eq_refl Hbefore eq_refl Hreturns).
Defined.

(** C3 fails on the code. A click and a page view are issued while the
    client loads, and the client that arrives throws from [track]: the
    notifications end with the exception of the first one, the click has
    been handed to the client, and the page view never is: both are still
    in the queue. *)
Lemma calls_behind_a_throwing_call_do_not_fire :
  let loading := render None true true DEFAULT in
  let broken := render (Some brittle) true true DEFAULT in
  let script := [(loading, Issue click); (loading, Issue visit)] in
  let h1 := state_of (run "3.2.0" script fresh) in
  let r := run "3.2.0" (replicate 2 (broken, Drain)) h1 in
  queue fresh = []
  ∧ Forall before_client script
  ∧ analytics broken = Some brittle
  ∧ queue h1 = pending "3.2.0" <$> issued script
  ∧ returned r = false
  ∧ queue (state_of r) = pending "3.2.0" <$> issued script
  ∧ received (trace (env (state_of r)))
    = [(2, call_of "3.2.0" loading click browser)].
Proof.
  intros loading broken script h1 r.
  split; [reflexivity|]. split; [repeat constructor|].
  repeat split.
Qed.

(** A queued click drained by a client that returns: the entry is gone. *)
Lemma drain_removes_oldest_entry_after_it_returns_sample :
  let loading := render None true true DEFAULT in
  let ready := render (Some segment) true true DEFAULT in
  let first := closure_of "3.2.0" loading click in
  let h := addToQueue first fresh in
  let e0 := set_analyticsRef (Some segment) (env h) in
  analytics ready = Some segment
  ∧ queue h = first :: []
  ∧ (∀ e, first e0 = Normal tt e →
       ∃ h', step "3.2.0" ready Drain h = Normal tt h'
             ∧ env h' = e ∧ queue h' = []
             ∧ stored h' = stored h ∧ localStorage h' = localStorage h)
  ∧ (∀ e, first e0 = Thrown e →
       ∃ h', step "3.2.0" ready Drain h = Thrown h'
             ∧ env h' = e ∧ queue h' = first :: []
             ∧ stored h' = stored h ∧ localStorage h' = localStorage h).
Proof.
  intros loading ready first h e0.
  split; [reflexivity|]. split; [reflexivity|].
  exact (drain_removes_oldest_entry_after_it_returns "3.2.0" ready segment
           first [] h eq_refl eq_refl).
Defined.

(** C4 fails on the code. A queued click drained by a client whose [track]
    throws: the client has been called, the drain step ends with the
    exception, and the click has not been removed: it is still the only
    entry of the queue. *)
Lemma throwing_entry_stays_queued :
  let loading := render None true true DEFAULT in
  let broken := render (Some brittle) true true DEFAULT in
  let first := closure_of "3.2.0" loading click in
  let h := addToQueue first fresh in
  let r := step "3.2.0" broken Drain h in
  queue h = [first]
  ∧ returned r = false
  ∧ queue (state_of r) = [first]
  ∧ received (trace (env (state_of r)))
    = [(2, call_of "3.2.0" loading click browser)].
Proof. repeat split. Qed.

(** Consent arrives while the identity of "u1" is stored. *)
Lemma consent_replays_deferred_identity_sample :
  let granted := render (Some segment) true true CONSENT_TO_IDENTIFY in
  let d := {| userId := "u1"; traits := Some {[ "plan" := JsString "pro" ]} |} in
  let h := holding d in
  consent granted = true
  ∧ stored h = Some d
  ∧ ∃ h',
      step "3.2.0" granted React h = Normal tt h'
      ∧ h' = removeDeferredIdentity
               (identify "3.2.0" granted (userId d) (traits d) None
                  (useAnalytics "3.2.0" granted h).2)
      ∧ queue h'
        = queue h
          ++ [identify_call "3.2.0" granted (userId d)
                (injectPrezlyMeta granted (default ∅ (traits d))) None]
      ∧ stored h' = None
      ∧ localStorage h' = delete DEFERRED_IDENTITY_STORAGE_KEY (localStorage h)
      ∧ localStorage h' !! DEFERRED_IDENTITY_STORAGE_KEY = None
      ∧ received (trace (env h')) = received (trace (env h))
      ∧ step "3.2.0" granted React h'
        = Normal tt (useAnalytics "3.2.0" granted h').2
      ∧ queue (useAnalytics "3.2.0" granted h').2 = queue h'.
Proof.
  intros granted d h.
  split; [reflexivity|]. split; [reflexivity|].
  exact (consent_replays_deferred_identity "3.2.0" granted h d eq_refl eq_refl).
Defined.

(** Consent is withdrawn while the client knows the user as "u1". *)
Lemma consent_withdrawn_defers_id_and_erases_sample :
  let denied := render (Some segment) false true DEFAULT in
  let h := known_as (Some "u1") in
  consent denied = false
  ∧ ∃ h',
      step "3.2.0" denied React h = Normal tt h'
      ∧ stored h' = Some {| userId := "u1"; traits := None |}
      ∧ localStorage h' !! DEFERRED_IDENTITY_STORAGE_KEY
        = Some {| userId := "u1"; traits := None |}
      ∧ ajs_user_id (env h') = None
      ∧ trace (env h') = [UserIdRead 1; UserIdErased 1].
Proof.
  intros denied h.
  split; [reflexivity|].
  destruct (consent_withdrawn_defers_id_and_erases "3.2.0" denied h eq_refl)
    as (h' & Hstep & Hset & _ & _ & _ & Hclient & _).
  destruct (Hset "u1" eq_refl ltac:(discriminate)) as [Hs Hl].
  destruct (Hclient segment eq_refl) as [Ht Hid].
  exists h'. split; [exact Hstep|]. split; [exact Hs|].
  split; [by rewrite Hl, lookup_insert_eq|]. split; [exact Hid|exact Ht].
Defined.

(** C6 fails on the code. The client reports the empty string as user id:
    the id is not [null], and still nothing is stored, in the state or
    under the storage key. *)
Lemma empty_user_id_is_not_deferred :
  let denied := render (Some segment) false true DEFAULT in
  let h := known_as (Some "") in
  let r := step "3.2.0" denied React h in
  (id_read (user denied) (env h)).1 = Some ""
  ∧ returned r = true
  ∧ stored (state_of r) = None
  ∧ localStorage (state_of r) !! DEFERRED_IDENTITY_STORAGE_KEY = None
  ∧ trace (env (state_of r)) = [UserIdRead 1; UserIdErased 1].
Proof. repeat split. Qed.

(** The disabled façade with a client around. *)
Lemma disabled_facade_has_no_effect_sample :
  let off := render (Some segment) false false CONSENT_TO_IDENTIFY in
  let f := returns (useAnalytics "3.2.0" off fresh).1 in
  isEnabled off = false
  ∧ (∀ op h', perform f op h' = h')
  ∧ (∀ op,
       step "3.2.0" off (Issue op) fresh
       = Normal tt (useAnalytics "3.2.0" off fresh).2)
  ∧ queue (useAnalytics "3.2.0" off fresh).2 = queue fresh
  ∧ stored (useAnalytics "3.2.0" off fresh).2 = stored fresh
  ∧ localStorage (useAnalytics "3.2.0" off fresh).2 = localStorage fresh
  ∧ trace (env (useAnalytics "3.2.0" off fresh).2) = trace (env fresh)
  ∧ Facade.user f = user off
  ∧ (∀ ctx' h', analytics ctx' = analytics off →
       Facade.user (returns (useAnalytics "3.2.0" ctx' h').1) = Facade.user f).
Proof.
  intros off f.
  split; [reflexivity|].
  exact (disabled_facade_has_no_effect "3.2.0" off fresh eq_refl).
Defined.

(** A click tracked without consent and drained after consent was given:
    the options carry no [userAgent]. *)
Lemma options_follow_consent_at_enqueue_sample :
  let before := render None false true DEFAULT in
  let after := render (Some segment) true true DEFAULT in
  isEnabled before = true
  ∧ enqueued_under before click
  ∧ queue fresh = []
  ∧ analytics after = Some segment
  ∧ offers segment click = true
  ∧ ∃ call,
      received
        (trace (env (state_of
           (run "3.2.0" [(before, Issue click); (after, Drain)] fresh))))
      = received (trace (env fresh)) ++ [(client_name segment, call)]
      ∧ options_of call = buildOptions "3.2.0" before (env fresh)
      ∧ (is_Some (userAgent (context (options_of call)))
         ↔ consent before = true).
Proof.
  intros before after.
  split; [reflexivity|]. split; [exact I|]. split; [reflexivity|].
  split; [reflexivity|]. split; [reflexivity|].
  exact (proj2 (options_follow_consent_at_enqueue "3.2.0" before after click
                  fresh segment eq_refl I eq_refl eq_refl eq_refl)).
Defined.

(** The disabled hook without consent, with a client that knows "u1". *)
Lemma effects_run_when_disabled_sample :
  let off := render (Some segment) false false DEFAULT in
  let h := known_as (Some "u1") in
  isEnabled off = false
  ∧ ∃ h',
      step "3.2.0" off React h = Normal tt h'
      ∧ trace (env h') = trace (env h) ++ [UserIdRead 1; UserIdErased 1]
      ∧ ajs_user_id (env h') = None
      ∧ stored h' = Some {| userId := "u1"; traits := None |}.
Proof.
  intros off h.
  split; [reflexivity|].
  destruct (effects_run_when_disabled "3.2.0" off h eq_refl)
    as (_ & _ & Hreact & _).
  destruct (Hreact segment eq_refl eq_refl eq_refl)
    as (h' & Hstep & Ht & Hid & Hset & _).
  destruct (Hset "u1" eq_refl ltac:(discriminate)) as [Hs _].
  exists h'. split; [exact Hstep|]. split; [exact Ht|].
  split; [exact Hid|exact Hs].
Defined.

(** C10 fails on the code where C6 does. The hook is disabled and the
    client reports the empty string as user id: the id is read and erased,
    and it is not written to the store although it is not [null]. *)
Lemma disabled_hook_does_not_defer_empty_user_id :
  let off := render (Some segment) false false DEFAULT in
  let h := known_as (Some "") in
  let r := step "3.2.0" off React h in
  isEnabled off = false
  ∧ ajs_user_id (env h) = Some ""
  ∧ returned r = true
  ∧ stored (state_of r) = None
  ∧ localStorage (state_of r) !! DEFERRED_IDENTITY_STORAGE_KEY = None
  ∧ trace (env (state_of r)) = [UserIdRead 1; UserIdErased 1].
Proof. repeat split. Qed.

(** A click in a development build. *)
Lemma operations_log_once_outside_production_sample :
  let loading := render None true true DEFAULT in
  let h' := state_of (step "3.2.0" loading (Issue click) fresh) in
  isEnabled loading = true
  ∧ console (trace (env h'))
    = console (trace (env fresh))
      ++ (if production (env fresh) then [] else [log_of loading click]).
Proof.
  intros loading h'. split; [reflexivity|].
  exact (operations_log_once_outside_production "3.2.0" loading click fresh
           eq_refl).
Defined.

(** An alias issued behind the closed consent gate. *)
Lemma alias_is_not_consent_gated_sample :
  let closed := render None false true CONSENT_TO_IDENTIFY in
  let ready := render (Some segment) false true CONSENT_TO_IDENTIFY in
  let issue := step "3.2.0" closed (Issue (Alias "u1" "anon-7")) fresh in
  let final :=
    state_of (run "3.2.0"
                [(closed, Issue (Alias "u1" "anon-7")); (ready, Drain)] fresh) in
  gate_closed closed
  ∧ isEnabled closed = true
  ∧ queue fresh = []
  ∧ analytics ready = Some segment
  ∧ can_alias segment = true
  ∧ returned issue = true
  ∧ stored (state_of issue) = stored fresh
  ∧ localStorage (state_of issue) = localStorage fresh
  ∧ received (trace (env final))
    = received (trace (env fresh))
      ++ [(client_name segment,
           CallAlias "u1" "anon-7" (buildOptions "3.2.0" closed (env fresh)))].
Proof.
  intros closed ready issue final.
  split; [by split|]. split; [reflexivity|]. split; [reflexivity|].
  split; [reflexivity|]. split; [reflexivity|].
  exact (alias_is_not_consent_gated "3.2.0" closed ready "u1" "anon-7" fresh
           segment eq_refl eq_refl eq_refl eq_refl).
Defined.

(** A page view drained by a client that has no [page]. *)
Lemma call_without_capability_is_dropped_sample :
  let loading := render None true true DEFAULT in
  let pageless :=
    {| client_name := 3;
       can_identify := true; can_alias := true; can_page := false;
       can_track := true; can_user := true;
       throws := λ _, true; effect_on_id := λ _ id, id |} in
  let ready := render (Some pageless) true true DEFAULT in
  isEnabled loading = true
  ∧ enqueued_under loading visit
  ∧ queue fresh = []
  ∧ analytics ready = Some pageless
  ∧ offers pageless visit = false
  ∧ ∃ h',
      run "3.2.0" [(loading, Issue visit); (ready, Drain)] fresh = Normal tt h'
      ∧ queue h' = []
      ∧ received (trace (env h')) = received (trace (env fresh)).
Proof.
  intros loading pageless ready.
  split; [reflexivity|]. split; [exact I|]. split; [reflexivity|].
  split; [reflexivity|]. split; [reflexivity|].
  exact (call_without_capability_is_dropped "3.2.0" loading ready visit fresh
           pageless eq_refl I eq_refl eq_refl eq_refl).
Defined.

(** A login held back, then consent. *)
Lemma deferred_identity_reaches_client_after_consent_sample :
  let closed := render None false true CONSENT_TO_IDENTIFY in
  let granted := render (Some segment) true true CONSENT_TO_IDENTIFY in
  let plan : option JsObj := Some {[ "plan" := JsString "pro" ]} in
  let done_cb := Some {| callback_name := 7 |} in
  let final :=
    state_of (run "3.2.0"
                [(closed, Issue (Identify "u1" plan done_cb));
                 (granted, React); (granted, Drain)] fresh) in
  gate_closed closed
  ∧ isEnabled closed = true
  ∧ consent granted = true
  ∧ analytics granted = Some segment
  ∧ can_identify segment = true
  ∧ queue fresh = []
  ∧ received (trace (env final))
    = received (trace (env fresh))
      ++ [(client_name segment,
           CallIdentify "u1" (injectPrezlyMeta granted (default ∅ plan))
             (buildOptions "3.2.0" granted (env fresh)) None)]
  ∧ invoked (trace (env final))
    = invoked (trace (env fresh)) ++ option_list done_cb
  ∧ stored final = None
  ∧ localStorage final !! DEFERRED_IDENTITY_STORAGE_KEY = None.
Proof.
  intros closed granted plan done_cb final.
  assert (gate_closed closed) as Hgate by (by split).
  split; [exact Hgate|]. split; [reflexivity|]. split; [reflexivity|].
  split; [reflexivity|]. split; [reflexivity|]. split; [reflexivity|].
  exact (deferred_identity_reaches_client_after_consent "3.2.0" closed granted
           "u1" plan done_cb fresh segment Hgate eq_refl eq_refl eq_refl eq_refl
           eq_refl).
Defined.

(** Consent withdrawn and given again for the user "u1". *)
Lemma withdrawn_identity_is_restored_on_consent_sample :
  let denied := render (Some segment) false true DEFAULT in
  let granted := render (Some segment) true true DEFAULT in
  let h := known_as (Some "u1") in
  let final :=
    state_of (run "3.2.0" [(denied, React); (granted, React); (granted, Drain)]
                h) in
  consent denied = false
  ∧ consent granted = true
  ∧ ajs_user_id (env h) = Some "u1"
  ∧ ajs_user_id (env (state_of (step "3.2.0" denied React h))) = None
  ∧ received (trace (env final))
    = received (trace (env h))
      ++ [(client_name segment,
           CallIdentify "u1" (injectPrezlyMeta granted ∅)
             (buildOptions "3.2.0" granted (env h)) None)]
  ∧ stored final = None
  ∧ localStorage final !! DEFERRED_IDENTITY_STORAGE_KEY = None.
Proof.
  intros denied granted h final.
  split; [reflexivity|]. split; [reflexivity|]. split; [reflexivity|].
  exact (withdrawn_identity_is_restored_on_consent "3.2.0" denied granted h
           segment "u1" eq_refl eq_refl eq_refl eq_refl eq_refl eq_refl eq_refl
           ltac:(discriminate) eq_refl).
Defined.

(** A login, a click and the effects, all behind the closed gate and with a
    client around. *)
Lemma no_identify_reaches_client_behind_closed_gate_sample :
  let closed := render (Some segment) false true CONSENT_TO_IDENTIFY in
  let script := [(closed, Issue login); (closed, React); (closed, Issue click);
                 (closed, Drain); (closed, Drain)] in
  Forall (λ entry, gate_closed entry.1) script
  ∧ queue fresh = []
  ∧ Forall (λ x, is_identify x.2 = false) (received (trace (env fresh)))
  ∧ Forall (λ x, is_identify x.2 = false)
      (received (trace (env (state_of (run "3.2.0" script fresh))))).
Proof.
  intros closed script.
  assert (Forall (λ entry, gate_closed entry.1) script) as Hgate
    by (repeat constructor).
  assert (Forall (λ x : nat * ClientCall, is_identify x.2 = false)
            (received (trace (env fresh)))) as Hbefore by constructor.
  split; [exact Hgate|]. split; [reflexivity|]. split; [exact Hbefore|].
  exact (no_identify_reaches_client_behind_closed_gate "3.2.0" script fresh
           Hgate eq_refl Hbefore).
Defined.

(** A login and a click without consent under the default policy: both
    reach the client, neither with [userAgent]. *)
Lemma no_userAgent_reaches_client_without_consent_sample :
  let denied := render (Some segment) false true DEFAULT in
  let script := [(denied, Issue login); (denied, Issue click);
                 (denied, Drain); (denied, Drain)] in
  Forall (λ entry, consent entry.1 = false) script
  ∧ queue fresh = []
  ∧ Forall (λ x, userAgent (context (options_of x.2)) = None)
      (received (trace (env fresh)))
  ∧ Forall (λ x, userAgent (context (options_of x.2)) = None)
      (received (trace (env (state_of (run "3.2.0" script fresh))))).
Proof.
  intros denied script.
  assert (Forall (λ entry, consent entry.1 = false) script) as Hconsent
    by (repeat constructor).
  assert (Forall (λ x : nat * ClientCall,
                    userAgent (context (options_of x.2)) = None)
            (received (trace (env fresh)))) as Hbefore by constructor.
  split; [exact Hconsent|]. split; [reflexivity|]. split; [exact Hbefore|].
  exact (no_userAgent_reaches_client_without_consent "3.2.0" script fresh
           Hconsent eq_refl Hbefore).
Defined.

(** Calls and notifications interleaved while the client is there. *)
Lemma interleaved_calls_keep_their_order_sample :
  let loading := render None true true DEFAULT in
  let ready := render (Some segment) true true DEFAULT in
  let script := [(loading, Issue click); (ready, Drain); (ready, Issue visit);
                 (ready, Issue login); (ready, Drain)] in
  queue fresh = []
  ∧ Forall (with_client segment) script
  ∧ (∀ call, throws segment call = false)
  ∧ ∃ h' n,
      run "3.2.0" script fresh = Normal tt h'
      ∧ (n ≤ length (issued script))%nat
      ∧ queue h' = pending "3.2.0" <$> drop n (issued script)
      ∧ received (trace (env h'))
        = received (trace (env fresh))
          ++ received
               (deliveries "3.2.0" segment (env fresh) (take n (issued script))).
Proof.
  intros loading ready script.
  assert (Forall (with_client segment) script) as Hscript.
  { unfold script. repeat apply Forall_cons_2; try apply Forall_nil.
    all: try exact I.
    all: split; [first [by left | by right] | simpl; try done].
    all: split; [done|]; try done; intros [_ Hc]; discriminate Hc. }
  assert (∀ call, throws segment call = false) as Hreturns by reflexivity.
  split; [reflexivity|]. split; [exact Hscript|]. split; [exact Hreturns|].
  exact (interleaved_calls_keep_their_order "3.2.0" segment script fresh
           eq_refl Hscript Hreturns).
Defined.

(** A click, the consent reaction and a notification before the client is
    loaded. *)
Lemma calls_wait_while_no_client_is_known_sample :
  let loading := render None true true DEFAULT in
  let script := [(loading, Issue click); (loading, React); (loading, Drain)] in
  Forall (λ entry, analytics entry.1 = None) script
  ∧ ∃ h',
      run "3.2.0" script fresh = Normal tt h'
      ∧ received (trace (env h')) = received (trace (env fresh))
      ∧ ajs_user_id (env h') = ajs_user_id (env fresh)
      ∧ queue fresh `prefix_of` queue h'.
Proof.
  intros loading script.
  assert (Forall (λ entry, analytics entry.1 = None) script) as Hnone
    by (repeat constructor).
  split; [exact Hnone|].
  exact (calls_wait_while_no_client_is_known "3.2.0" script fresh Hnone).
Defined.

(** The reaction before the client has loaded. *)
Lemma reaction_without_user_api_changes_nothing_sample :
  let denied := render None false true DEFAULT in
  let h := known_as (Some "u1") in
  consent denied = false
  ∧ (analytics denied = None
     ∨ ∃ c, analytics denied = Some c ∧ can_user c = false)
  ∧ ∃ h',
      step "3.2.0" denied React h = Normal tt h'
      ∧ queue h' = queue h
      ∧ stored h' = stored h
      ∧ localStorage h' = localStorage h
      ∧ trace (env h') = trace (env h)
      ∧ ajs_user_id (env h') = ajs_user_id (env h)
      ∧ analyticsRef (env h') = analytics denied.
Proof.
  intros denied h.
  assert (analytics denied = None
          ∨ ∃ c, analytics denied = Some c ∧ can_user c = false) as Hfake
    by (by left).
  split; [reflexivity|]. split; [exact Hfake|].
  exact (reaction_without_user_api_changes_nothing "3.2.0" denied h eq_refl
           Hfake).
Defined.

(** A stored identity and consent under a disabled render. *)
Lemma disabled_hook_still_replays_stored_identity_sample :
  let off := render (Some segment) true false DEFAULT in
  let d := {| userId := "u1"; traits := None |} in
  let h := holding d in
  let final := state_of (run "3.2.0" [(off, React); (off, Drain)] h) in
  isEnabled off = false
  ∧ consent off = true
  ∧ stored h = Some d
  ∧ (∀ userId traits callback,
       step "3.2.0" off (Issue (Identify userId traits callback)) h
       = Normal tt (useAnalytics "3.2.0" off h).2)
  ∧ received (trace (env final))
    = received (trace (env h))
      ++ [(client_name segment,
           CallIdentify (userId d)
             (injectPrezlyMeta off (default ∅ (traits d)))
             (buildOptions "3.2.0" off (env h)) None)]
  ∧ stored final = None.
Proof.
  intros off d h final.
  split; [reflexivity|]. split; [reflexivity|]. split; [reflexivity|].
  exact (disabled_hook_still_replays_stored_identity "3.2.0" off segment d h
           eq_refl eq_refl eq_refl eq_refl eq_refl eq_refl).
Defined.

(** A login that brings a [prezly] of its own, and a click. *)
Lemma received_calls_carry_the_newsroom_sample :
  let ready := render (Some segment) true true DEFAULT in
  let forged : option JsObj := Some {[ "prezly" := JsString "mine" ]} in
  let script := [(ready, Issue (Identify "u1" forged None)); (ready, Drain);
                 (ready, Issue click); (ready, Drain)] in
  Forall (λ entry, newsroom_uuid (newsroom entry.1) = "8f1c-newsroom") script
  ∧ queue fresh = []
  ∧ Forall (λ x, attributed_to "8f1c-newsroom" x.2)
      (received (trace (env fresh)))
  ∧ Forall (λ x, attributed_to "8f1c-newsroom" x.2)
      (received (trace (env (state_of (run "3.2.0" script fresh))))).
Proof.
  intros ready forged script.
  assert (Forall (λ entry, newsroom_uuid (newsroom entry.1) = "8f1c-newsroom")
            script) as Hnewsroom by (repeat constructor).
  assert (Forall (λ x : nat * ClientCall, attributed_to "8f1c-newsroom" x.2)
            (received (trace (env fresh)))) as Hbefore by constructor.
  split; [exact Hnewsroom|]. split; [reflexivity|]. split; [exact Hbefore|].
  exact (received_calls_carry_the_newsroom "3.2.0" "8f1c-newsroom" script fresh
           Hnewsroom eq_refl Hbefore).
Defined.
